(** * The two-stage decision policy of [app.py]

    A shallow embedding of the decision pipeline of [src/app.py]: the
    configuration load at import time, [classify_with_confidence],
    [safe_attribution], [human_ai_decision] and [full_classify].

    Modelling choices.
    - A Python [str] holding user text is a list of Unicode code points
      ([N]); class labels and messages are [string]s.
    - A decision score (a numpy [float64]) is an exact rational ([Q]); the
      binary floating-point error of the scores is not modelled.
      [round(x, 3)] rounds the exact value to the nearest multiple of
      [1/1000], ties to even.  The code rounds a double (it multiplies by
      1000, rounds to an integer and divides, and the gap is rounded after a
      subtraction of doubles), so the two differ where a double is not the
      decimal it prints as (the double 0.4995 becomes 0.5 in the code and
      0.499 here) and outside the range of doubles.  The statements below
      are about what is done with the rounded values; none bounds the
      distance between a score and its rounded value.
    - The two scikit-learn models are opaque: a record of functions.  Every
      call into a model is appended to a log, so that "the oracle is not
      invoked" is a statement about the log.  The attribution model gives a
      list of scores and the configuration holds numbers: a fitted model of
      two classes, whose [decision_function] gives one number so that [zip]
      raises [TypeError], and a configuration file whose JSON is not an
      object of numbers are outside the model.
    - A Python exception is an explicit [Raise] outcome. *)

From Stdlib Require Import ZArith QArith Qabs Lia.
From Stdlib Require Import DecimalString.
From stdpp Require Import gmap strings list sorting.

Local Open Scope Z_scope.

(** ** Text: [str.strip] and [str.split] *)

Abbreviation text := (list N).

(** Code points that [str.isspace] accepts (the set that [strip()] and
    [split()] without argument use). *)
Definition isspace (c : N) : bool :=
  ((9 <=? c) && (c <=? 13) || (28 <=? c) && (c <=? 32)
   || (c =? 133) || (c =? 160) || (c =? 5760)
   || (8192 <=? c) && (c <=? 8202)
   || (c =? 8232) || (c =? 8233) || (c =? 8239) || (c =? 8287)
   || (c =? 12288))%N.

Fixpoint lstrip (t : text) : text :=
  match t with
  | [] => []
  | c :: t' => if isspace c then lstrip t' else t
  end.

Definition rstrip (t : text) : text := rev (lstrip (rev t)).

(** [text.strip()] *)
Definition strip (t : text) : text := rstrip (lstrip t).

(** [split_from cur t]: the words of [t], where [cur] holds (reversed) the
    characters of the word being read. *)
Fixpoint split_from (cur : text) (t : text) : list text :=
  match t with
  | [] => match cur with [] => [] | _ => [rev cur] end
  | c :: t' =>
      if isspace c
      then match cur with
           | [] => split_from [] t'
           | _ => rev cur :: split_from [] t'
           end
      else split_from (c :: cur) t'
  end.

(** [text.split()]: maximal runs of characters that are not whitespace. *)
Definition split (t : text) : list text := split_from [] t.

(** The code points of an ASCII literal. *)
Definition text_of_string (s : string) : text :=
  map (fun a => Ascii.N_of_ascii a) (String.list_ascii_of_string s).

(** [str(n)] for a length. *)
Definition str (n : nat) : string := NilZero.string_of_uint (Nat.to_uint n).

(** ** Numbers: [abs], [round] and the comparisons *)

(** Nearest integer, ties to even. *)
Definition round_half_even (q : Q) : Z :=
  let n := Qnum q in
  let d := Z.pos (Qden q) in
  let f := n / d in
  match (2 * (n mod d)) ?= d with
  | Lt => f
  | Gt => f + 1
  | Eq => if Z.even f then f else f + 1
  end.

(** [round(x, ndigits)] *)
Definition round (x : Q) (ndigits : nat) : Q :=
  let p := inject_Z (10 ^ Z.of_nat ndigits) in
  Qred (inject_Z (round_half_even (x * p)) / p).

(** [a < b] *)
Definition Qlt_bool (a b : Q) : bool := negb (Qle_bool b a).

(** ** Outcomes, the call log and the monad of a request *)

Inductive exn : Type :=
| IndexError
| KeyError (key : string)
| FileNotFoundError
| OSError
| JSONDecodeError.

Inductive outcome (A : Type) : Type :=
| Return (a : A)
| Raise (e : exn).
Arguments Return {A} a.
Arguments Raise {A} e.

(** One entry per call into a model. *)
Inductive call : Type :=
| HumanAI_decision_function (t : text)
| HumanAI_predict (t : text)
| Attrib_decision_function (t : text).

Definition is_attrib_call (c : call) : bool :=
  match c with Attrib_decision_function _ => true | _ => false end.

Definition Py (A : Type) : Type := list call -> outcome A * list call.

Definition ret {A} (a : A) : Py A := fun log => (Return a, log).

Definition raise {A} (e : exn) : Py A := fun log => (Raise e, log).

Definition bind {A B} (m : Py A) (k : A -> Py B) : Py B :=
  fun log =>
    match m log with
    | (Return a, log') => k a log'
    | (Raise e, log') => (Raise e, log')
    end.

(** A call into a model: the call is logged and its value returned. *)
Definition invoke {A} (c : call) (v : A) : Py A :=
  fun log => (Return v, log ++ [c]).

Declare Scope py_scope.
Delimit Scope py_scope with py.
Notation "x <- m ;; k" := (bind m (fun x => k))
  (at level 100, m at next level, right associativity) : py_scope.

(** [d[key]] on the configuration dict. *)
Definition getitem (d : gmap string Q) (key : string) : Py Q :=
  match d !! key with
  | Some v => ret v
  | None => raise (KeyError key)
  end.

(** [l[i]] on a list, for [i >= 0]. *)
Definition index {A} (l : list A) (i : nat) : Py A :=
  match l !! i with
  | Some v => ret v
  | None => raise IndexError
  end.

(** [l[:k]] *)
Definition slice_to {A} (l : list A) (k : Z) : list A :=
  if k <? 0
  then take (Z.to_nat (Z.of_nat (length l) + k)) l
  else take (Z.to_nat k) l.

(** ** [sorted(..., key=..., reverse=...)] *)

Section Sorted.
Context {A : Type} (key : A -> Q).

(** [x] goes in front of the first element whose key is not smaller, so
    that it stays ahead of the elements with an equal key. *)
Fixpoint insert_by (x : A) (l : list A) : list A :=
  match l with
  | [] => [x]
  | y :: l' =>
      if Qle_bool (key x) (key y) then x :: l else y :: insert_by x l'
  end.

(** Stable sort by ascending key. *)
Fixpoint sort_ascending (l : list A) : list A :=
  match l with
  | [] => []
  | x :: l' => insert_by x (sort_ascending l')
  end.

(** With [reverse=True] the list is reversed, sorted and reversed again,
    which keeps the elements of equal key in their original order. *)
Definition sorted (l : list A) (reverse : bool) : list A :=
  if reverse then rev (sort_ascending (rev l)) else sort_ascending l.
End Sorted.

(** ** The models and the globals of the module *)

(** The binary human/AI classifier: one signed score, one label. *)
Record HumanAIModel : Type := {
  hvai_decision_function : text -> Q;
  hvai_predict : text -> string
}.

(** The attribution classifier: its classes and one score per class. *)
Record AttribModel : Type := {
  classes_ : list string;
  decision_function : text -> list Q
}.

Record Globals : Type := {
  human_ai_model : HumanAIModel;
  attrib_model : AttribModel;
  CONFIG : gmap string Q
}.

(** The dict built by [human_ai_decision]. *)
Record HvaiResult : Type := {
  label : string;
  confidence : Q;
  raw_score : Q
}.

(** The dict built by [safe_attribution]. *)
Record AttribResult : Type := {
  predicted_model : string;
  confidence_gap : Q;
  top_candidates : list (string * Q)
}.

Inductive details : Type :=
| HvaiDetails (h : HvaiResult)
| AttribDetails (a : AttribResult).

(** The dict returned by [full_classify], one constructor per shape. *)
Inductive verdict : Type :=
| Uncertain (reason : string)
| Human (d : details)
| AiUncertain (d : AttribResult)
| Ai (model : string) (d : AttribResult).

Definition final_label (v : verdict) : string :=
  match v with
  | Uncertain _ => "uncertain"
  | Human _ => "human"
  | AiUncertain _ => "ai_uncertain"
  | Ai _ _ => "ai"
  end.

(** ** The functions of the module *)

Local Open Scope py_scope.

(** [classify_with_confidence(text, model, top_k=3)]; its one caller passes
    [attrib_model]. *)
Definition classify_with_confidence (text : text) (model : AttribModel)
    (top_k : Z) : Py (list (string * Q)) :=
  scores <- invoke (Attrib_decision_function text)
                   (decision_function model text) ;;
  let classes := classes_ model in
  let ranked := sorted snd (zip classes scores) true in
  ret (slice_to ranked top_k).

Section Policy.
Variable g : Globals.

Definition safe_attribution (text : text) : Py AttribResult :=
  ranked <- classify_with_confidence text (attrib_model g) 3 ;;
  best <- index ranked 0 ;;
  let '(best_model, best_score) := best in
  second <- index ranked 1 ;;
  let '(second_model, second_score) := second in
  let gap := (best_score - second_score)%Q in
  ret {| predicted_model := best_model;
         confidence_gap := round gap 3;
         top_candidates := map (fun '(m, s) => (m, round s 3)) ranked |}.

Definition human_ai_decision (text : text) : Py HvaiResult :=
  score <- invoke (HumanAI_decision_function text)
                  (hvai_decision_function (human_ai_model g) text) ;;
  label <- invoke (HumanAI_predict text)
                  (hvai_predict (human_ai_model g) text) ;;
  ret {| label := label;
         confidence := round (Qabs score) 3;
         raw_score := round score 3 |}.

Definition full_classify (text : text) : Py verdict :=
  let text := strip text in
  let word_count := length (split text) in
  min_words <- getitem (CONFIG g) "min_words" ;;
  if Qlt_bool (inject_Z (Z.of_nat word_count)) min_words
  then ret (Uncertain ("Text too short (" +:+ (str word_count +:+ " words)")))
  else
    hvai <- human_ai_decision text ;;
    is_human <-
      (if String.eqb (label hvai) "human"
       then threshold <- getitem (CONFIG g) "human_confidence_threshold" ;;
            ret (Qle_bool threshold (confidence hvai))
       else ret false) ;;
    if (is_human : bool)
    then ret (Human (HvaiDetails hvai))
    else
      attrib <- safe_attribution text ;;
      if String.eqb (predicted_model attrib) "human_story"
      then ret (Human (AttribDetails attrib))
      else
        gap_threshold <- getitem (CONFIG g) "attrib_confidence_gap" ;;
        if Qlt_bool (confidence_gap attrib) gap_threshold
        then ret (AiUncertain attrib)
        else ret (Ai (predicted_model attrib) attrib).
End Policy.

(** ** Import time: loading the models and the configuration *)

(** What [joblib.load] finds at a model path. *)
Inductive model_file (M : Type) : Type :=
| ModelMissing
| ModelLoaded (m : M).
Arguments ModelMissing {M}.
Arguments ModelLoaded {M} m.

(** What the module finds at [config_path]: nothing ([os.path.exists] is
    false), a file that [open] cannot read, a file that [json.load]
    rejects, or a JSON object of numbers. *)
Inductive config_file : Type :=
| ConfigAbsent
| ConfigUnreadable
| ConfigNotJson
| ConfigJson (d : gmap string Q).

Record environment : Type := {
  human_ai_joblib : model_file HumanAIModel;
  attrib_joblib : model_file AttribModel;
  config_json : config_file
}.

Definition joblib_load {M} (f : model_file M) : outcome M :=
  match f with
  | ModelMissing => Raise FileNotFoundError
  | ModelLoaded m => Return m
  end.

(** The literal of the [else] branch. *)
Definition DEFAULT_CONFIG : gmap string Q :=
  <["min_words" := 30%Q]>
    (<["human_confidence_threshold" := (5 # 10)%Q]>
       (<["attrib_confidence_gap" := (15 # 100)%Q]> ∅)).

(** Lines 16 to 25: the [if os.path.exists(config_path)] statement. *)
Definition load_config (f : config_file) : outcome (gmap string Q) :=
  match f with
  | ConfigAbsent => Return DEFAULT_CONFIG
  | ConfigUnreadable => Raise OSError
  | ConfigNotJson => Raise JSONDecodeError
  | ConfigJson d => Return d
  end.

(** The top-level statements of the module, up to the definitions. *)
Definition import_module (env : environment) : outcome Globals :=
  match joblib_load (human_ai_joblib env) with
  | Raise e => Raise e
  | Return h =>
      match joblib_load (attrib_joblib env) with
      | Raise e => Raise e
      | Return a =>
          match load_config (config_json env) with
          | Raise e => Raise e
          | Return c =>
              Return {| human_ai_model := h; attrib_model := a; CONFIG := c |}
          end
      end
  end.

(** The process: the module is imported, then each request is answered by
    [full_classify], every one from an empty log.  When the import raises,
    the process ends and no request is answered. *)
Definition run (env : environment) (requests : list text)
    : outcome (list (outcome verdict * list call)) :=
  match import_module env with
  | Raise e => Raise e
  | Return g => Return (map (fun t => full_classify g t []) requests)
  end.

(** ** Vocabulary of the statements *)

(** [len(text.strip().split())], the count that the length guardrail
    tests. *)
Definition word_count (t : text) : nat := length (split (strip t)).

(** The number of logged calls that satisfy [p]. *)
Definition invocations (p : call -> bool) (log : list call) : nat :=
  length (List.filter p log).

(** The calls that [human_ai_decision] makes on [t]. *)
Definition stage1_calls (t : text) : list call :=
  [HumanAI_decision_function t; HumanAI_predict t].

(** The guard of line 76 is false: the text is long enough. *)
Definition passes_length_guardrail (g : Globals) (t : text) : Prop :=
  ∃ min_words : Q,
    CONFIG g !! "min_words" = Some min_words ∧
    ¬ (inject_Z (Z.of_nat (word_count t)) < min_words)%Q.

(** The guard of line 85 is false: the label is not ["human"], or the
    rounded confidence is under the threshold. *)
Definition stage1_declines (g : Globals) (t : text) : Prop :=
  hvai_predict (human_ai_model g) (strip t) ≠ "human" ∨
  ∃ threshold : Q,
    CONFIG g !! "human_confidence_threshold" = Some threshold ∧
    ¬ (threshold <=
       round (Qabs (hvai_decision_function (human_ai_model g) (strip t))) 3)%Q.

(** [needle in hay] *)
Fixpoint str_contains (needle hay : string) : bool :=
  String.prefix needle hay ||
  match hay with
  | EmptyString => false
  | String _ hay' => str_contains needle hay'
  end.

(** What the statements after line 92 do with the outcome of
    [safe_attribution]. *)
Definition stage2_outcome (g : Globals)
    (r : outcome AttribResult * list call) : outcome verdict * list call :=
  match r with
  | (Raise e, log') => (Raise e, log')
  | (Return attrib, log') =>
      if String.eqb (predicted_model attrib) "human_story"
      then (Return (Human (AttribDetails attrib)), log')
      else
        match CONFIG g !! "attrib_confidence_gap" with
        | None => (Raise (KeyError "attrib_confidence_gap"), log')
        | Some gap_threshold =>
            if Qlt_bool (confidence_gap attrib) gap_threshold
            then (Return (AiUncertain attrib), log')
            else (Return (Ai (predicted_model attrib) attrib), log')
        end
  end.


(** ** The orders of a ranking *)

Section Orders.
Context {A : Type} (key : A -> Q).

(** The order of a stable ascending sort: by key, and among equal keys by
    the relation [before]. *)
Definition ascending (before : relation A) : relation A :=
  fun a b => (key a < key b)%Q ∨ ((key a == key b)%Q ∧ before a b).

(** The order of [sorted] with [reverse=True]. *)
Definition descending (before : relation A) : relation A :=
  fun a b => (key b < key a)%Q ∨ ((key a == key b)%Q ∧ before a b).

(** [a] stands at an earlier index of [l] than [b]. *)
Definition precedes (l : list A) : relation A :=
  fun a b => ∃ i j : nat, (i < j)%nat ∧ l !! i = Some a ∧ l !! j = Some b.
End Orders.

(** ** Sample models, configurations and requests *)

Definition sample_human_ai (score : Q) (label : string) : HumanAIModel :=
  {| hvai_decision_function := fun _ => score;
     hvai_predict := fun _ => label |}.

Definition sample_attrib (classes : list string) (scores : list Q)
    : AttribModel :=
  {| classes_ := classes; decision_function := fun _ => scores |}.

Definition three_styles : list string :=
  ["gpt_style"; "llama_style"; "human_story"].

Definition four_styles : list string :=
  ["gpt_style"; "llama_style"; "human_story"; "mistral_style"].

(** Four words. *)
Definition four_words : text :=
  text_of_string "  only four words here ".

(** Ten words. *)
Definition ten_words : text :=
  text_of_string "one two three four five six seven eight nine ten".

(** Thirty words. *)
Definition thirty_words : text :=
  text_of_string
    "one two three four five six seven eight nine ten one two three four five six seven eight nine ten one two three four five six seven eight nine ten".

Definition sample_globals (score : Q) (label : string)
    (classes : list string) (scores : list Q) : Globals :=
  {| human_ai_model := sample_human_ai score label;
     attrib_model := sample_attrib classes scores;
     CONFIG := DEFAULT_CONFIG |}.

Definition sample_environment (a : AttribModel) (c : config_file)
    : environment :=
  {| human_ai_joblib := ModelLoaded (sample_human_ai (9 # 10) "ai");
     attrib_joblib := ModelLoaded a;
     config_json := c |}.

(** ** The callback of the interface: [ui_wrapper] *)

(** The texts of lines 155 to 183, as the UTF-8 bytes of the source. *)
Definition newline : string := String (Ascii.ascii_of_nat 10) EmptyString.

Definition HEADLINE_HUMAN : string := "## ✅ Likely Human-Written".

Definition HEADLINE_AI : string := "## 🤖 Likely AI-Generated".

Definition HEADLINE_AI_UNCERTAIN : string :=
  "## ⚠️ AI-Generated (Uncertain Attribution)".

Definition HEADLINE_UNCERTAIN : string := "## ❓ Uncertain".

Definition EXPLANATION_HUMAN : string :=
  "The text shows high stylistic variability and does not strongly match "
  +:+ "known AI generation patterns.".

Definition EXPLANATION_AI_UNCERTAIN : string :=
  "The text appears AI-generated, but its style is similar to multiple models."
  +:+ (newline +:+ (newline +:+ "A confident attribution cannot be made.")).

Definition EXPLANATION_FALLBACK : string :=
  "The system could not make a reliable determination.".

(** [result["predicted_model"]]: the key exists in the dict of line 106
    only. *)
Definition getitem_predicted_model (result : verdict) : Py string :=
  match result with
  | Ai model _ => ret model
  | _ => raise (KeyError "predicted_model")
  end.

(** [result["details"]]: the dict of line 77 has no such key. *)
Definition getitem_details (result : verdict) : Py details :=
  match result with
  | Uncertain _ => raise (KeyError "details")
  | Human d => ret d
  | AiUncertain a => ret (AttribDetails a)
  | Ai _ a => ret (AttribDetails a)
  end.

(** [details["confidence_gap"]]: a key of the dict of [safe_attribution],
    not of the dict of [human_ai_decision]. *)
Definition getitem_confidence_gap (d : details) : Py Q :=
  match d with
  | AttribDetails a => ret (confidence_gap a)
  | HvaiDetails _ => raise (KeyError "confidence_gap")
  end.

(** [result.get("reason", default)] *)
Definition get_reason (result : verdict) (default : string) : string :=
  match result with
  | Uncertain reason => reason
  | _ => default
  end.

Section Interface.
(** [str] of the gap inside the f-string of line 168: the text that Python
    prints for a float is not modelled, it is a parameter. *)
Variable format_gap : Q -> string.
Variable g : Globals.

(** The f-string of lines 167 and 168. *)
Definition explanation_ai (model : string) (gap : Q) : string :=
  "The text most closely resembles **"
  +:+ (model
  +:+ ("**."
  +:+ (newline
  +:+ (newline
  +:+ ("Confidence gap: **"
  +:+ (format_gap gap
  +:+ "** — higher values indicate stronger attribution confidence.")))))).

(** [ui_wrapper(text)] returns the headline, the explanation and the
    result. *)
Definition ui_wrapper (text : text) : Py (string * string * verdict) :=
  result <- full_classify g text ;;
  if String.eqb (final_label result) "human"
  then ret (HEADLINE_HUMAN, EXPLANATION_HUMAN, result)
  else if String.eqb (final_label result) "ai"
  then
    model <- getitem_predicted_model result ;;
    details <- getitem_details result ;;
    gap <- getitem_confidence_gap details ;;
    ret (HEADLINE_AI, explanation_ai model gap, result)
  else if String.eqb (final_label result) "ai_uncertain"
  then ret (HEADLINE_AI_UNCERTAIN, EXPLANATION_AI_UNCERTAIN, result)
  else ret (HEADLINE_UNCERTAIN, get_reason result EXPLANATION_FALLBACK, result).
End Interface.

(** * Facts about the library functions *)

(** ** [sorted] *)

Section SortedFacts.
Context {A : Type} (key : A -> Q).

Lemma insert_by_Permutation (x : A) (l : list A) :
  insert_by key x l ≡ₚ x :: l.
Proof.
  induction l as [|y l IH]; simpl; [done|].
  destruct (Qle_bool (key x) (key y)); [done|].
  rewrite IH. apply Permutation_swap.
Qed.

Lemma sort_ascending_Permutation (l : list A) : sort_ascending key l ≡ₚ l.
Proof.
  induction l as [|x l IH]; simpl; [done|].
  by rewrite insert_by_Permutation, IH.
Qed.

Lemma sorted_Permutation (l : list A) (reverse : bool) :
  sorted key l reverse ≡ₚ l.
Proof.
  unfold sorted. destruct reverse.
  - rewrite <- Permutation_rev, sort_ascending_Permutation.
    symmetry. apply Permutation_rev.
  - apply sort_ascending_Permutation.
Qed.

Lemma length_sorted (l : list A) (reverse : bool) :
  length (sorted key l reverse) = length l.
Proof. apply Permutation_length, sorted_Permutation. Qed.

Lemma ascending_key_le (before : relation A) (a b : A) :
  ascending key before a b → (key a <= key b)%Q.
Proof.
  intros [Hlt|[Heq _]]; [by apply Qlt_le_weak|].
  rewrite Heq. apply Qle_refl.
Qed.

Lemma insert_by_ascending (before : relation A) (x : A) (l : list A) :
  Forall (before x) l →
  StronglySorted (ascending key before) l →
  StronglySorted (ascending key before) (insert_by key x l).
Proof.
  induction l as [|y l IH]; simpl; intros Hx Hl.
  { repeat constructor. }
  apply Forall_cons in Hx as [Hxy Hxl].
  apply StronglySorted_cons in Hl as [Hyl Hl].
  destruct (Qle_bool (key x) (key y)) eqn:Hle.
  - apply Qle_bool_iff in Hle.
    constructor; [by repeat constructor|].
    assert (Hall : ∀ z, before x z → (key y <= key z)%Q →
                        ascending key before x z).
    { intros z Hb Hyz.
      destruct (Qle_lt_or_eq _ _ (Qle_trans _ _ _ Hle Hyz)) as [?|?];
        [by left|by right]. }
    constructor; [apply Hall; [done|apply Qle_refl]|].
    rewrite Forall_forall in Hxl, Hyl |- *. intros z Hz.
    apply Hall; [by apply Hxl|].
    eapply ascending_key_le, Hyl, Hz.
  - constructor; [by apply IH|].
    rewrite insert_by_Permutation. constructor; [|done].
    left. apply Qnot_le_lt. intros Hc.
    apply Qle_bool_iff in Hc. congruence.
Qed.

Lemma sort_ascending_ascending (before : relation A) (l : list A) :
  StronglySorted before l →
  StronglySorted (ascending key before) (sort_ascending key l).
Proof.
  induction l as [|x l IH]; simpl; intros Hl; [constructor|].
  apply StronglySorted_cons in Hl as [Hxl Hl].
  apply insert_by_ascending; [|by apply IH].
  by rewrite sort_ascending_Permutation.
Qed.

Lemma StronglySorted_rev (R : relation A) (l : list A) :
  StronglySorted R l → StronglySorted (flip R) (rev l).
Proof.
  induction l as [|x l IH]; simpl; intros Hl; [constructor|].
  apply StronglySorted_cons in Hl as [Hxl Hl].
  apply StronglySorted_app_2; [|by apply IH|repeat constructor].
  intros a b Ha Hb. apply list_elem_of_singleton in Hb as ->.
  rewrite Forall_forall in Hxl. apply Hxl.
  by apply list_elem_of_In, in_rev, list_elem_of_In.
Qed.

Lemma StronglySorted_mono (R1 R2 : relation A) (l : list A) :
  (∀ a b, R1 a b → R2 a b) →
  StronglySorted R1 l → StronglySorted R2 l.
Proof.
  intros HR. induction 1 as [|x l Hl IH Hx]; constructor; [done|].
  eapply Forall_impl; [exact Hx|]. intros z. apply HR.
Qed.

Lemma StronglySorted_take (R : relation A) (l : list A) (n : nat) :
  StronglySorted R l → StronglySorted R (take n l).
Proof.
  intros Hl. rewrite <- (take_drop n l) in Hl.
  by apply StronglySorted_app_1_l in Hl.
Qed.

Lemma StronglySorted_lookup (R : relation A) (l : list A) (p q : nat)
    (a b : A) :
  StronglySorted R l →
  l !! p = Some a → l !! q = Some b → (p < q)%nat → R a b.
Proof.
  intros Hl. revert p q.
  induction Hl as [|x l Hl IH Hx]; intros p q Hp Hq Hpq; [done|].
  destruct q as [|q]; [lia|]. simpl in Hq.
  destruct p as [|p]; simpl in Hp.
  - injection Hp as ->. rewrite Forall_forall in Hx.
    eapply Hx, list_elem_of_lookup_2, Hq.
  - eapply IH; [exact Hp|exact Hq|lia].
Qed.

Lemma precedes_StronglySorted (l : list A) : StronglySorted (precedes l) l.
Proof.
  induction l as [|x l IH]; constructor.
  - eapply StronglySorted_mono; [|exact IH].
    intros a b (i & j & Hij & Hi & Hj).
    exists (S i), (S j). split; [lia|done].
  - apply Forall_forall. intros z Hz.
    apply list_elem_of_lookup_1 in Hz as [j Hj].
    exists 0%nat, (S j). split; [lia|done].
Qed.

(** [sorted(l, key=key, reverse=True)] is in descending order of key, and
    elements of equal key stay in the order [before] that they have in
    [l]. *)
Lemma sorted_reverse_descending (before : relation A) (l : list A) :
  StronglySorted before l →
  StronglySorted (descending key before) (sorted key l true).
Proof.
  intros Hl. unfold sorted.
  apply StronglySorted_rev in Hl.
  apply (sort_ascending_ascending (flip before)), StronglySorted_rev in Hl.
  eapply StronglySorted_mono; [|exact Hl].
  intros a b [Hlt|[Heq Hb]]; [by left|right].
  split; [by symmetry|done].
Qed.

Lemma descending_key_ge (before : relation A) (a b : A) :
  descending key before a b → (key b <= key a)%Q.
Proof.
  intros [Hlt|[Heq _]]; [by apply Qlt_le_weak|].
  rewrite Heq. apply Qle_refl.
Qed.
End SortedFacts.

(** ** [round] and the comparisons *)

Lemma Qlt_bool_true (a b : Q) : Qlt_bool a b = true ↔ (a < b)%Q.
Proof.
  unfold Qlt_bool. rewrite negb_true_iff. split.
  - intros H. apply Qnot_le_lt. intros Hle.
    apply Qle_bool_iff in Hle. congruence.
  - intros H. destruct (Qle_bool b a) eqn:E; [|done].
    apply Qle_bool_iff in E. by apply Qlt_not_le in H.
Qed.

Lemma Qlt_bool_false (a b : Q) : Qlt_bool a b = false ↔ ¬ (a < b)%Q.
Proof.
  rewrite <- Qlt_bool_true. destruct (Qlt_bool a b); naive_solver.
Qed.

Lemma Qle_bool_false (a b : Q) : Qle_bool a b = false ↔ ¬ (a <= b)%Q.
Proof.
  rewrite <- Qle_bool_iff. destruct (Qle_bool a b); naive_solver.
Qed.

Lemma round_half_even_nonneg (q : Q) : (0 <= q)%Q → 0 ≤ round_half_even q.
Proof.
  intros Hq. unfold round_half_even.
  assert (Hn : 0 ≤ Qnum q).
  { unfold Qle in Hq. simpl in Hq. lia. }
  assert (Hf : 0 ≤ Qnum q / Z.pos (Qden q)) by (apply Z.div_pos; lia).
  destruct (2 * (Qnum q mod Z.pos (Qden q)) ?= Z.pos (Qden q)); [|lia|lia].
  destruct (Z.even _); lia.
Qed.

Lemma round_nonneg (x : Q) (ndigits : nat) : (0 <= x)%Q → (0 <= round x ndigits)%Q.
Proof.
  intros Hx. unfold round. rewrite Qred_correct.
  assert (Hp : 0 < 10 ^ Z.of_nat ndigits) by (apply Z.pow_pos_nonneg; lia).
  apply Qle_shift_div_l.
  - unfold Qlt. simpl. lia.
  - rewrite Qmult_0_l.
    change 0%Q with (inject_Z 0). rewrite <- Zle_Qle.
    apply round_half_even_nonneg.
    apply Qmult_le_0_compat; [done|].
    unfold Qle. simpl. lia.
Qed.

(** * Facts about the functions of the module *)

(** ** [classify_with_confidence] *)

Lemma slice_to_take {A} (l : list A) (k : Z) :
  ∃ n : nat, slice_to l k = take n l.
Proof. unfold slice_to. destruct (k <? 0); eauto. Qed.

Lemma length_slice_to {A} (l : list A) (k : Z) :
  0 ≤ k → length (slice_to l k) = Nat.min (Z.to_nat k) (length l).
Proof.
  intros Hk. unfold slice_to.
  destruct (Z.ltb_spec k 0); [lia|]. apply length_take.
Qed.

Lemma classify_with_confidence_run (t : text) (model : AttribModel)
    (top_k : Z) (log : list call) :
  classify_with_confidence t model top_k log =
    (Return (slice_to (sorted snd (zip (classes_ model)
                                       (decision_function model t)) true)
                      top_k),
     log ++ [Attrib_decision_function t]).
Proof. reflexivity. Qed.

Lemma length_zip {A B} (l : list A) (k : list B) :
  length (zip l k) = Nat.min (length l) (length k).
Proof. apply length_zip_with. Qed.

(** ** [human_ai_decision] *)

Lemma human_ai_decision_run (g : Globals) (t : text) (log : list call) :
  human_ai_decision g t log =
    (Return {| label := hvai_predict (human_ai_model g) t;
               confidence :=
                 round (Qabs (hvai_decision_function (human_ai_model g) t)) 3;
               raw_score :=
                 round (hvai_decision_function (human_ai_model g) t) 3 |},
     log ++ stage1_calls t).
Proof.
  unfold human_ai_decision, bind, invoke, ret, stage1_calls.
  by rewrite <- app_assoc.
Qed.

(** ** [safe_attribution] *)

Lemma safe_attribution_run (g : Globals) (t : text) (log : list call)
    (ranked : list (string * Q)) (best second : string * Q) :
  ranked = slice_to (sorted snd (zip (classes_ (attrib_model g))
                                     (decision_function (attrib_model g) t))
                            true) 3 →
  ranked !! 0%nat = Some best →
  ranked !! 1%nat = Some second →
  safe_attribution g t log =
    (Return {| predicted_model := best.1;
               confidence_gap := round (best.2 - second.2) 3;
               top_candidates := map (fun '(m, s) => (m, round s 3)) ranked |},
     log ++ [Attrib_decision_function t]).
Proof.
  intros -> H0 H1. unfold safe_attribution, bind.
  rewrite classify_with_confidence_run. unfold index.
  rewrite H0. unfold ret at 1. destruct best as [bm bs].
  rewrite H1. unfold ret at 1. by destruct second as [sm ss].
Qed.

Lemma safe_attribution_short (g : Globals) (t : text) (log : list call) :
  (length (classes_ (attrib_model g)) < 2)%nat →
  safe_attribution g t log = (Raise IndexError, log ++ [Attrib_decision_function t]).
Proof.
  intros Hn. unfold safe_attribution, bind.
  rewrite classify_with_confidence_run. unfold index.
  set (ranked := slice_to _ 3).
  assert (Hlen : (length ranked < 2)%nat).
  { unfold ranked. rewrite length_slice_to by lia.
    rewrite length_sorted, length_zip. lia. }
  destruct ranked as [|[bm bs] [|second ranked]]; simpl in *; [done|done|lia].
Qed.

(** ** [full_classify] *)

Lemma full_classify_short (g : Globals) (t : text) (min_words : Q)
    (log : list call) :
  CONFIG g !! "min_words" = Some min_words →
  (inject_Z (Z.of_nat (word_count t)) < min_words)%Q →
  full_classify g t log =
    (Return (Uncertain ("Text too short ("
                        +:+ (str (word_count t) +:+ " words)"))), log).
Proof.
  intros Hcfg Hlt. unfold full_classify, bind, getitem.
  rewrite Hcfg. unfold ret at 1.
  apply Qlt_bool_true in Hlt. unfold word_count in Hlt. by rewrite Hlt.
Qed.

Lemma full_classify_long (g : Globals) (t : text) (log : list call) :
  passes_length_guardrail g t →
  full_classify g t log =
    (hvai <- human_ai_decision g (strip t) ;;
     is_human <-
       (if String.eqb (label hvai) "human"
        then threshold <- getitem (CONFIG g) "human_confidence_threshold" ;;
             ret (Qle_bool threshold (confidence hvai))
        else ret false) ;;
     if (is_human : bool)
     then ret (Human (HvaiDetails hvai))
     else
       attrib <- safe_attribution g (strip t) ;;
       if String.eqb (predicted_model attrib) "human_story"
       then ret (Human (AttribDetails attrib))
       else
         gap_threshold <- getitem (CONFIG g) "attrib_confidence_gap" ;;
         if Qlt_bool (confidence_gap attrib) gap_threshold
         then ret (AiUncertain attrib)
         else ret (Ai (predicted_model attrib) attrib))%py log.
Proof.
  intros (min_words & Hcfg & Hge). unfold full_classify.
  unfold bind at 1. unfold getitem at 1. rewrite Hcfg. unfold ret at 1.
  apply Qlt_bool_false in Hge. unfold word_count in Hge. by rewrite Hge.
Qed.

Lemma full_classify_stage2 (g : Globals) (t : text) (log : list call) :
  passes_length_guardrail g t →
  stage1_declines g t →
  full_classify g t log =
    stage2_outcome g
      (safe_attribution g (strip t) (log ++ stage1_calls (strip t))).
Proof.
  intros Hlen Hdec. rewrite full_classify_long by done.
  unfold bind at 1. rewrite human_ai_decision_run. simpl label. simpl confidence.
  assert (Hfalse :
    (if String.eqb (hvai_predict (human_ai_model g) (strip t)) "human"
     then threshold <- getitem (CONFIG g) "human_confidence_threshold" ;;
          ret (Qle_bool threshold
                 (round (Qabs (hvai_decision_function (human_ai_model g)
                                 (strip t))) 3))
     else ret false)%py (log ++ stage1_calls (strip t))
    = (Return false, log ++ stage1_calls (strip t))).
  { destruct Hdec as [Hne|(thr & Hthr & Hlt)].
    - apply String.eqb_neq in Hne. by rewrite Hne.
    - destruct (String.eqb _ _); [|done].
      unfold bind, getitem. rewrite Hthr. unfold ret.
      apply Qle_bool_false in Hlt. by rewrite Hlt. }
  unfold bind at 1. rewrite Hfalse.
  unfold bind, stage2_outcome.
  destruct (safe_attribution g (strip t) _) as [[attrib|e] log']; [|done].
  destruct (String.eqb (predicted_model attrib) _); [done|].
  unfold getitem. destruct (CONFIG g !! _); [|done].
  unfold ret. by destruct (Qlt_bool _ _).
Qed.

Lemma safe_attribution_Return (g : Globals) (t : text) (log log' : list call)
    (attrib : AttribResult) :
  safe_attribution g t log = (Return attrib, log') →
  ∃ best second : string * Q,
    let ranked :=
      slice_to (sorted snd (zip (classes_ (attrib_model g))
                                (decision_function (attrib_model g) t))
                       true) 3 in
    ranked !! 0%nat = Some best ∧
    ranked !! 1%nat = Some second ∧
    attrib = {| predicted_model := best.1;
                confidence_gap := round (best.2 - second.2) 3;
                top_candidates :=
                  map (fun '(m, s) => (m, round s 3)) ranked |} ∧
    log' = log ++ [Attrib_decision_function t].
Proof.
  intros Hrun.
  destruct (slice_to (sorted snd (zip (classes_ (attrib_model g))
                                      (decision_function (attrib_model g) t))
                             true) 3 !! 0%nat) as [best|] eqn:H0.
  - destruct (slice_to (sorted snd (zip (classes_ (attrib_model g))
                                      (decision_function (attrib_model g) t))
                               true) 3 !! 1%nat) as [second|] eqn:H1.
    + exists best, second. cbv zeta.
      rewrite (safe_attribution_run g t log _ best second eq_refl H0 H1)
        in Hrun.
      by injection Hrun as <- <-.
    + exfalso. revert Hrun. unfold safe_attribution, bind.
      rewrite classify_with_confidence_run. unfold index.
      rewrite H0. unfold ret at 1. destruct best. by rewrite H1.
  - exfalso. revert Hrun. unfold safe_attribution, bind.
    rewrite classify_with_confidence_run. unfold index.
    by rewrite H0.
Qed.

Lemma full_classify_stage1_exit (g : Globals) (t : text) (threshold : Q)
    (log : list call) :
  passes_length_guardrail g t →
  hvai_predict (human_ai_model g) (strip t) = "human" →
  CONFIG g !! "human_confidence_threshold" = Some threshold →
  (threshold <=
   round (Qabs (hvai_decision_function (human_ai_model g) (strip t))) 3)%Q →
  full_classify g t log =
    (Return (Human (HvaiDetails
       {| label := hvai_predict (human_ai_model g) (strip t);
          confidence :=
            round (Qabs (hvai_decision_function (human_ai_model g)
                           (strip t))) 3;
          raw_score :=
            round (hvai_decision_function (human_ai_model g) (strip t)) 3 |})),
     log ++ stage1_calls (strip t)).
Proof.
  intros Hlen Hlabel Hcfg Hge.
  rewrite full_classify_long by done.
  unfold bind at 1. rewrite human_ai_decision_run.
  simpl label. simpl confidence. rewrite Hlabel. simpl String.eqb.
  unfold bind, getitem. rewrite Hcfg. unfold ret.
  apply Qle_bool_iff in Hge. by rewrite Hge.
Qed.

Lemma stage2_outcome_not_stage1 (g : Globals)
    (r : outcome AttribResult * list call) (h : HvaiResult) :
  (stage2_outcome g r).1 ≠ Return (Human (HvaiDetails h)).
Proof.
  destruct r as [[attrib|e] log']; simpl; [|done].
  destruct (String.eqb _ _); [done|].
  destruct (CONFIG g !! _); [|done].
  by destruct (Qlt_bool _ _).
Qed.

(** ** [str_contains] *)

Lemma prefix_app (needle post : string) :
  String.prefix needle (needle +:+ post) = true.
Proof.
  induction needle as [|c needle IH]; simpl; [by destruct post|].
  destruct (Ascii.ascii_dec c c); [done|congruence].
Qed.

Lemma str_contains_prefix (needle hay : string) :
  String.prefix needle hay = true → str_contains needle hay = true.
Proof. destruct hay; simpl; by intros ->. Qed.

Lemma str_contains_app (needle pre post : string) :
  str_contains needle (pre +:+ (needle +:+ post)) = true.
Proof.
  induction pre as [|c pre IH].
  - apply str_contains_prefix. apply (prefix_app needle post).
  - change (str_contains needle (String c (pre +:+ (needle +:+ post))) = true).
    simpl. rewrite IH. apply orb_true_r.
Qed.

(** * The claims *)

(** ** The length guardrail *)

(** C1 (amended): when the word count of the stripped text is below
    [CONFIG["min_words"]], [full_classify] returns at once the verdict
    ["uncertain"], the log of model calls is unchanged (no oracle is
    invoked), and the reason is ["Text too short (<count> words)"]: it
    embeds the word count, and nothing else of the request or of the
    configuration. *)
Theorem short_text_uncertain_no_oracle (g : Globals) (t : text)
    (min_words : Q) (log : list call) :
  CONFIG g !! "min_words" = Some min_words →
  (inject_Z (Z.of_nat (word_count t)) < min_words)%Q →
  ∃ reason : string,
    full_classify g t log = (Return (Uncertain reason), log) ∧
    final_label (Uncertain reason) = "uncertain" ∧
    reason = "Text too short (" +:+ (str (word_count t) +:+ " words)") ∧
    str_contains (str (word_count t)) reason = true.
Proof.
  intros Hcfg Hlt. eexists. split; [by eapply full_classify_short|].
  split; [done|]. split; [done|]. apply str_contains_app.
Qed.

Lemma short_text_uncertain_no_oracle_witness :
  ∃ reason : string,
    full_classify (sample_globals (9 # 10) "ai" three_styles [2; 1; 0]%Q)
      four_words [] = (Return (Uncertain reason), []) ∧
    final_label (Uncertain reason) = "uncertain" ∧
    reason = "Text too short (4 words)" ∧
    str_contains "4" reason = true.
Proof.
  apply (short_text_uncertain_no_oracle
           (sample_globals (9 # 10) "ai" three_styles [2; 1; 0]%Q)
           four_words 30%Q []); reflexivity.
Defined.

(** C1 as stated fails: with the default threshold of 30 words and a text of
    four words the reason is ["Text too short (4 words)"], which embeds the
    count but not the threshold. *)
Lemma short_text_reason_omits_threshold :
  CONFIG (sample_globals (9 # 10) "ai" three_styles [2; 1; 0]%Q)
    !! "min_words" = Some 30%Q ∧
  ¬ ∃ reason : string,
      (full_classify (sample_globals (9 # 10) "ai" three_styles [2; 1; 0]%Q)
         four_words []).1 = Return (Uncertain reason) ∧
      str_contains (str 4) reason = true ∧
      str_contains (str 30) reason = true.
Proof.
  split; [reflexivity|].
  intros (reason & Hrun & _ & H30).
  vm_compute in Hrun. injection Hrun as <-.
  vm_compute in H30. discriminate.
Qed.

(** ** Stage 1 *)

(** C2: for a text that passes the length guardrail, when the human/AI
    model predicts ["human"] and the confidence, the rounded absolute
    score, is at least [CONFIG["human_confidence_threshold"]],
    [full_classify] returns the verdict ["human"] whose details are the
    result of [human_ai_decision] (label, confidence, raw score), and the
    only calls logged are the two of stage 1: the attribution model is not
    invoked. *)
Theorem confident_human_skips_attribution (g : Globals) (t : text)
    (threshold : Q) (log : list call) :
  passes_length_guardrail g t →
  hvai_predict (human_ai_model g) (strip t) = "human" →
  CONFIG g !! "human_confidence_threshold" = Some threshold →
  (threshold <=
   round (Qabs (hvai_decision_function (human_ai_model g) (strip t))) 3)%Q →
  ∃ (hvai : HvaiResult) (log' : list call),
    full_classify g t log = (Return (Human (HvaiDetails hvai)), log') ∧
    final_label (Human (HvaiDetails hvai)) = "human" ∧
    human_ai_decision g (strip t) log = (Return hvai, log') ∧
    label hvai = "human" ∧
    confidence hvai =
      round (Qabs (hvai_decision_function (human_ai_model g) (strip t))) 3 ∧
    raw_score hvai =
      round (hvai_decision_function (human_ai_model g) (strip t)) 3 ∧
    log' = log ++ stage1_calls (strip t) ∧
    invocations is_attrib_call log' = invocations is_attrib_call log.
Proof.
  intros Hlen Hlabel Hcfg Hge.
  eexists _, _. split; [|split; [done|split; [apply human_ai_decision_run|]]].
  - by eapply full_classify_stage1_exit.
  - simpl. repeat split; try done.
    unfold invocations. rewrite List.filter_app. simpl.
    rewrite length_app. simpl. lia.
Qed.

Lemma confident_human_skips_attribution_witness :
  ∃ (hvai : HvaiResult) (log' : list call),
    full_classify (sample_globals (8 # 10) "human" three_styles [2; 1; 0]%Q)
      thirty_words [] = (Return (Human (HvaiDetails hvai)), log') ∧
    final_label (Human (HvaiDetails hvai)) = "human" ∧
    human_ai_decision (sample_globals (8 # 10) "human" three_styles [2; 1; 0]%Q)
      (strip thirty_words) [] = (Return hvai, log') ∧
    label hvai = "human" ∧
    confidence hvai = round (Qabs (8 # 10)) 3 ∧
    raw_score hvai = round (8 # 10) 3 ∧
    log' = [] ++ stage1_calls (strip thirty_words) ∧
    invocations is_attrib_call log' = invocations is_attrib_call [].
Proof.
  apply (confident_human_skips_attribution
           (sample_globals (8 # 10) "human" three_styles [2; 1; 0]%Q)
           thirty_words (5 # 10)%Q []).
  - exists 30%Q. split; [reflexivity|]. intros H. vm_compute in H. discriminate.
  - reflexivity.
  - reflexivity.
  - intros H. vm_compute in H. discriminate.
Defined.

(** ** Stage 2 *)

(** C3: when stage 2 runs (the text passes the length guardrail and stage 1
    does not return) and the class ranked first by the attribution model
    is ["human_story"], [full_classify] returns the verdict ["human"] with
    the attribution result as details.  Neither the confidence gap nor
    [CONFIG["attrib_confidence_gap"]] is looked at. *)
Theorem sentinel_class_is_human (g : Globals) (t : text)
    (log log' : list call) (attrib : AttribResult) :
  passes_length_guardrail g t →
  stage1_declines g t →
  safe_attribution g (strip t) (log ++ stage1_calls (strip t))
    = (Return attrib, log') →
  predicted_model attrib = "human_story" →
  full_classify g t log = (Return (Human (AttribDetails attrib)), log') ∧
  final_label (Human (AttribDetails attrib)) = "human".
Proof.
  intros Hlen Hdec Hrun Hpred.
  rewrite full_classify_stage2, Hrun by done.
  unfold stage2_outcome. by rewrite Hpred.
Qed.

Lemma sentinel_class_is_human_witness :
  let g := sample_globals (9 # 10) "ai" three_styles [1; 1; 3]%Q in
  let attrib :=
    {| predicted_model := "human_story";
       confidence_gap := 2%Q;
       top_candidates :=
         [("human_story", 3%Q); ("gpt_style", 1%Q); ("llama_style", 1%Q)] |} in
  full_classify g thirty_words [] =
    (Return (Human (AttribDetails attrib)),
     stage1_calls (strip thirty_words)
     ++ [Attrib_decision_function (strip thirty_words)]) ∧
  final_label (Human (AttribDetails attrib)) = "human".
Proof.
  intros g attrib.
  apply (sentinel_class_is_human g thirty_words []).
  - exists 30%Q. split; [reflexivity|]. intros H. vm_compute in H. discriminate.
  - left. intros H. vm_compute in H. discriminate.
  - reflexivity.
  - reflexivity.
Defined.

(** C4: when stage 2 runs and the class ranked first is not
    ["human_story"]: if the (rounded) confidence gap of the attribution
    result is strictly below [CONFIG["attrib_confidence_gap"]] the verdict is
    ["ai_uncertain"] with the attribution result as details; otherwise the
    verdict is ["ai"], with the predicted class and the attribution
    result. *)
Theorem gap_decides_ai_or_uncertain (g : Globals) (t : text)
    (log log' : list call) (attrib : AttribResult) (gap_threshold : Q) :
  passes_length_guardrail g t →
  stage1_declines g t →
  safe_attribution g (strip t) (log ++ stage1_calls (strip t))
    = (Return attrib, log') →
  predicted_model attrib ≠ "human_story" →
  CONFIG g !! "attrib_confidence_gap" = Some gap_threshold →
  ((confidence_gap attrib < gap_threshold)%Q →
   full_classify g t log = (Return (AiUncertain attrib), log') ∧
   final_label (AiUncertain attrib) = "ai_uncertain") ∧
  (¬ (confidence_gap attrib < gap_threshold)%Q →
   full_classify g t log
     = (Return (Ai (predicted_model attrib) attrib), log') ∧
   final_label (Ai (predicted_model attrib) attrib) = "ai").
Proof.
  intros Hlen Hdec Hrun Hpred Hcfg.
  rewrite full_classify_stage2, Hrun by done.
  unfold stage2_outcome. apply String.eqb_neq in Hpred.
  rewrite Hpred, Hcfg. split; intros Hgap.
  - apply Qlt_bool_true in Hgap. by rewrite Hgap.
  - apply Qlt_bool_false in Hgap. by rewrite Hgap.
Qed.

Lemma gap_decides_ai_or_uncertain_witness :
  let g := sample_globals (9 # 10) "ai" three_styles [2; 195 # 100; 12 # 10]%Q in
  let attrib :=
    {| predicted_model := "gpt_style";
       confidence_gap := (1 # 20)%Q;
       top_candidates :=
         [("gpt_style", 2%Q); ("llama_style", (39 # 20)%Q);
          ("human_story", (6 # 5)%Q)] |} in
  let log' :=
    stage1_calls (strip thirty_words)
    ++ [Attrib_decision_function (strip thirty_words)] in
  ((confidence_gap attrib < 15 # 100)%Q →
   full_classify g thirty_words [] = (Return (AiUncertain attrib), log') ∧
   final_label (AiUncertain attrib) = "ai_uncertain") ∧
  (¬ (confidence_gap attrib < 15 # 100)%Q →
   full_classify g thirty_words []
     = (Return (Ai (predicted_model attrib) attrib), log') ∧
   final_label (Ai (predicted_model attrib) attrib) = "ai").
Proof.
  intros g attrib log'.
  apply (gap_decides_ai_or_uncertain g thirty_words []).
  - exists 30%Q. split; [reflexivity|]. intros H. vm_compute in H. discriminate.
  - left. intros H. vm_compute in H. discriminate.
  - reflexivity.
  - intros H. vm_compute in H. discriminate.
  - reflexivity.
Defined.

(** ** The attribution result *)

(** What [classify_with_confidence] returns is in descending order of
    score. *)
Lemma classify_with_confidence_descending (t : text) (model : AttribModel)
    (top_k : Z) :
  StronglySorted (descending snd (precedes (zip (classes_ model)
                                                (decision_function model t))))
    (slice_to (sorted snd (zip (classes_ model) (decision_function model t))
                      true) top_k).
Proof.
  destruct (slice_to_take
              (sorted snd (zip (classes_ model) (decision_function model t))
                      true) top_k) as [n ->].
  apply StronglySorted_take, sorted_reverse_descending,
    precedes_StronglySorted.
Qed.

(** C5: when the attribution model has at least two classes (and a score
    for each), [safe_attribution] returns a result whose confidence gap is
    the difference of the two highest scores rounded to 3 decimals, and this
    gap is not negative, since the first score is not below the second. *)
Theorem confidence_gap_rounded_nonneg (g : Globals) (t : text)
    (log : list call) :
  (2 ≤ length (classes_ (attrib_model g)))%nat →
  (2 ≤ length (decision_function (attrib_model g) t))%nat →
  ∃ (ranked : list (string * Q)) (best second : string * Q)
    (attrib : AttribResult) (log' : list call),
    classify_with_confidence t (attrib_model g) 3 log = (Return ranked, log') ∧
    ranked !! 0%nat = Some best ∧
    ranked !! 1%nat = Some second ∧
    safe_attribution g t log = (Return attrib, log') ∧
    predicted_model attrib = best.1 ∧
    confidence_gap attrib = round (best.2 - second.2) 3 ∧
    (second.2 <= best.2)%Q ∧
    (0 <= confidence_gap attrib)%Q.
Proof.
  intros Hc Hs.
  set (ranked := slice_to (sorted snd (zip (classes_ (attrib_model g))
                                       (decision_function (attrib_model g) t))
                                  true) 3).
  assert (Hlen : (2 ≤ length ranked)%nat).
  { unfold ranked. rewrite length_slice_to by lia.
    rewrite length_sorted, length_zip. lia. }
  destruct (lookup_lt_is_Some_2 ranked 0) as [best H0]; [lia|].
  destruct (lookup_lt_is_Some_2 ranked 1) as [second H1]; [lia|].
  assert (Hle : (second.2 <= best.2)%Q).
  { eapply (descending_key_ge snd), StronglySorted_lookup;
      [apply (classify_with_confidence_descending t (attrib_model g) 3)
      |exact H0|exact H1|lia]. }
  eexists ranked, best, second, _, _.
  split; [apply classify_with_confidence_run|].
  split; [done|]. split; [done|].
  split; [by apply (safe_attribution_run g t log ranked best second)|].
  simpl. split; [done|]. split; [done|]. split; [done|].
  apply round_nonneg. by apply (Qplus_le_l _ _ (second.2)); ring_simplify.
Qed.

Lemma confidence_gap_rounded_nonneg_witness :
  let g := sample_globals (9 # 10) "ai" three_styles [17 # 10; 2; 12 # 10]%Q in
  ∃ (ranked : list (string * Q)) (best second : string * Q)
    (attrib : AttribResult) (log' : list call),
    classify_with_confidence [] (attrib_model g) 3 [] = (Return ranked, log') ∧
    ranked !! 0%nat = Some best ∧
    ranked !! 1%nat = Some second ∧
    safe_attribution g [] [] = (Return attrib, log') ∧
    predicted_model attrib = best.1 ∧
    confidence_gap attrib = round (best.2 - second.2) 3 ∧
    (second.2 <= best.2)%Q ∧
    (0 <= confidence_gap attrib)%Q.
Proof.
  intros g.
  apply (confidence_gap_rounded_nonneg g [] []); simpl; lia.
Defined.

(** ** The ranking *)

(** In the whole sorted list, before the slice, the earlier declared of two
    pairs with equal scores stands above the later one, when the pairs are
    distinct. *)
Lemma sorted_tied_order (declared : list (string * Q)) (i j : nat)
    (a b : string * Q) :
  NoDup declared →
  (i < j)%nat →
  declared !! i = Some a →
  declared !! j = Some b →
  (a.2 == b.2)%Q →
  ∃ p q : nat,
    (p < q)%nat ∧
    sorted snd declared true !! p = Some a ∧
    sorted snd declared true !! q = Some b.
Proof.
  intros Hnd Hij Hi Hj Heq.
  assert (Ha : a ∈ sorted snd declared true).
  { rewrite sorted_Permutation. by eapply list_elem_of_lookup_2. }
  assert (Hb : b ∈ sorted snd declared true).
  { rewrite sorted_Permutation. by eapply list_elem_of_lookup_2. }
  apply list_elem_of_lookup_1 in Ha as [p Hp].
  apply list_elem_of_lookup_1 in Hb as [q Hq].
  exists p, q. split; [|done].
  destruct (Nat.lt_trichotomy p q) as [Hlt|[->|Hgt]]; [done|exfalso..].
  - assert (a = b) as -> by congruence.
    pose proof (NoDup_lookup _ _ _ _ Hnd Hi Hj). lia.
  - pose proof (sorted_reverse_descending snd (precedes declared) declared
                  (precedes_StronglySorted declared)) as Hfull.
    destruct (StronglySorted_lookup _ _ q p b a Hfull Hq Hp Hgt)
      as [Hlt|[_ (i' & j' & Hij' & Hi' & Hj')]].
    + simpl in Hlt. rewrite Heq in Hlt. by apply Qlt_irrefl in Hlt.
    + pose proof (NoDup_lookup _ _ _ _ Hnd Hi Hj').
      pose proof (NoDup_lookup _ _ _ _ Hnd Hj Hi'). lia.
Qed.

(** C6: the list returned by [classify_with_confidence] is [full[:top_k]]
    for a list [full] that is a permutation of the pairs of a class of
    [model.classes_] and its score, in descending order of score, in which
    classes with equal scores keep the order of [model.classes_]: of two
    entries with equal scores, the one ranked higher is declared at an
    earlier index; and, the classes being distinct, the earlier declared of
    two tied classes stands above the later one in [full], hence above it in
    the returned list whenever the later one is returned. *)
Theorem ranking_descending_and_stable (t : text) (model : AttribModel)
    (top_k : Z) (log : list call) :
  ∃ ranked : list (string * Q),
    classify_with_confidence t model top_k log
      = (Return ranked, log ++ [Attrib_decision_function t]) ∧
    StronglySorted (fun a b => (b.2 <= a.2)%Q) ranked ∧
    (∀ (p q : nat) (a b : string * Q),
       (p < q)%nat → ranked !! p = Some a → ranked !! q = Some b →
       (a.2 == b.2)%Q →
       precedes (zip (classes_ model) (decision_function model t)) a b) ∧
    (∀ (i j q : nat) (a b : string * Q),
       NoDup (classes_ model) →
       (i < j)%nat →
       zip (classes_ model) (decision_function model t) !! i = Some a →
       zip (classes_ model) (decision_function model t) !! j = Some b →
       (a.2 == b.2)%Q →
       ranked !! q = Some b →
       ∃ p : nat, (p < q)%nat ∧ ranked !! p = Some a) ∧
    ∃ full : list (string * Q),
      full ≡ₚ zip (classes_ model) (decision_function model t) ∧
      ranked = slice_to full top_k ∧
      (0 ≤ top_k → ranked = take (Z.to_nat top_k) full) ∧
      StronglySorted (fun a b => (b.2 <= a.2)%Q) full ∧
      (∀ (p q : nat) (a b : string * Q),
         (p < q)%nat → full !! p = Some a → full !! q = Some b →
         (a.2 == b.2)%Q →
         precedes (zip (classes_ model) (decision_function model t)) a b) ∧
      (∀ (i j : nat) (a b : string * Q),
         NoDup (classes_ model) →
         (i < j)%nat →
         zip (classes_ model) (decision_function model t) !! i = Some a →
         zip (classes_ model) (decision_function model t) !! j = Some b →
         (a.2 == b.2)%Q →
         ∃ p q : nat,
           (p < q)%nat ∧ full !! p = Some a ∧ full !! q = Some b).
Proof.
  set (declared := zip (classes_ model) (decision_function model t)).
  pose proof (classify_with_confidence_descending t model top_k) as Hsorted.
  pose proof (sorted_reverse_descending snd (precedes declared) declared
                (precedes_StronglySorted declared)) as Hfull.
  fold declared in Hsorted.
  assert (Htie : ∀ (l : list (string * Q)) (p q : nat) (a b : string * Q),
    StronglySorted (descending snd (precedes declared)) l →
    (p < q)%nat → l !! p = Some a → l !! q = Some b → (a.2 == b.2)%Q →
    precedes declared a b).
  { intros l p q a b Hl Hpq Hp Hq Heq.
    destruct (StronglySorted_lookup _ _ p q a b Hl Hp Hq Hpq)
      as [Hlt|[_ Hprec]]; [|done].
    exfalso. simpl in Hlt. rewrite Heq in Hlt. by apply Qlt_irrefl in Hlt. }
  eexists. split; [apply classify_with_confidence_run|]. fold declared.
  split; [|split; [|split]].
  - eapply StronglySorted_mono; [|exact Hsorted].
    intros a b. apply (descending_key_ge snd).
  - intros p q a b. by apply Htie.
  - intros i j q a b Hnd Hij Hi Hj Heq Hq.
    assert (Hdecl : NoDup declared) by (by apply NoDup_zip_l).
    destruct (sorted_tied_order declared i j a b Hdecl Hij Hi Hj Heq)
      as (p & q' & Hpq & Hp & Hq').
    destruct (slice_to_take (sorted snd declared true) top_k) as [n Hn].
    rewrite Hn in Hq |- *.
    apply lookup_take_Some in Hq as [Hq Hqn].
    assert (Hndfull : NoDup (sorted snd declared true))
      by (by rewrite sorted_Permutation).
    pose proof (NoDup_lookup _ _ _ _ Hndfull Hq Hq') as <-.
    exists p. split; [done|]. by rewrite lookup_take_lt by lia.
  - exists (sorted snd declared true).
    split; [apply sorted_Permutation|]. split; [done|].
    split; [|split; [|split]].
    + intros Hk. unfold slice_to. by destruct (Z.ltb_spec top_k 0); [lia|].
    + eapply StronglySorted_mono; [|exact Hfull].
      intros a b. apply (descending_key_ge snd).
    + intros p q a b. by apply Htie.
    + intros i j a b Hnd. apply sorted_tied_order. by apply NoDup_zip_l.
Qed.

Lemma ranking_descending_and_stable_witness :
  let model := sample_attrib four_styles [1; 2; 1; 2]%Q in
  ∃ ranked : list (string * Q),
    classify_with_confidence [] model 3 []
      = (Return ranked, [] ++ [Attrib_decision_function []]) ∧
    StronglySorted (fun a b => (b.2 <= a.2)%Q) ranked ∧
    (∀ (p q : nat) (a b : string * Q),
       (p < q)%nat → ranked !! p = Some a → ranked !! q = Some b →
       (a.2 == b.2)%Q →
       precedes (zip (classes_ model) (decision_function model [])) a b) ∧
    (∀ (i j q : nat) (a b : string * Q),
       NoDup (classes_ model) →
       (i < j)%nat →
       zip (classes_ model) (decision_function model []) !! i = Some a →
       zip (classes_ model) (decision_function model []) !! j = Some b →
       (a.2 == b.2)%Q →
       ranked !! q = Some b →
       ∃ p : nat, (p < q)%nat ∧ ranked !! p = Some a) ∧
    ∃ full : list (string * Q),
      full ≡ₚ zip (classes_ model) (decision_function model []) ∧
      ranked = slice_to full 3 ∧
      (0 ≤ 3 → ranked = take (Z.to_nat 3) full) ∧
      StronglySorted (fun a b => (b.2 <= a.2)%Q) full ∧
      (∀ (p q : nat) (a b : string * Q),
         (p < q)%nat → full !! p = Some a → full !! q = Some b →
         (a.2 == b.2)%Q →
         precedes (zip (classes_ model) (decision_function model [])) a b) ∧
      (∀ (i j : nat) (a b : string * Q),
         NoDup (classes_ model) →
         (i < j)%nat →
         zip (classes_ model) (decision_function model []) !! i = Some a →
         zip (classes_ model) (decision_function model []) !! j = Some b →
         (a.2 == b.2)%Q →
         ∃ p q : nat,
           (p < q)%nat ∧ full !! p = Some a ∧ full !! q = Some b).
Proof.
  intros model.
  exact (ranking_descending_and_stable [] model 3 []).
Defined.

(** The ranking of the sample above: the two classes that score 2 come
    first, in their declared order, then the first declared of the two that
    score 1. *)
Example ranking_of_tied_scores :
  classify_with_confidence [] (sample_attrib four_styles [1; 2; 1; 2]%Q) 3 []
  = (Return [("llama_style", 2%Q); ("mistral_style", 2%Q); ("gpt_style", 1%Q)],
     [Attrib_decision_function []]).
Proof. reflexivity. Qed.

(** C7 as stated fails: with four classes the returned ranking has three
    entries, not four. *)
Lemma ranking_shorter_than_class_count :
  length (classes_ (sample_attrib four_styles [1; 2; 1; 2]%Q)) = 4%nat ∧
  (∃ ranked : list (string * Q),
     (classify_with_confidence []
        (sample_attrib four_styles [1; 2; 1; 2]%Q) 3 []).1 = Return ranked ∧
     length ranked = 3%nat) ∧
  (∃ attrib : AttribResult,
     (safe_attribution
        (sample_globals (9 # 10) "ai" four_styles [1; 2; 1; 2]%Q) [] []).1
     = Return attrib ∧
     length (top_candidates attrib) = 3%nat).
Proof.
  split; [reflexivity|]. split; eexists; split; reflexivity.
Qed.

(** C7 (amended): for a model with one score per class and a [top_k] that is
    not negative, the list returned by [classify_with_confidence] has
    [min(top_k, number of classes)] entries, hence at most 3 with the default
    [top_k], and it is not empty when there is at least one class and
    [top_k] is at least 1.  The [top_candidates] of an attribution result are
    as many. *)
Theorem ranking_length_is_min_top_k (g : Globals) (t : text) (top_k : Z)
    (log : list call) :
  length (decision_function (attrib_model g) t)
    = length (classes_ (attrib_model g)) →
  0 ≤ top_k →
  ∃ ranked : list (string * Q),
    classify_with_confidence t (attrib_model g) top_k log
      = (Return ranked, log ++ [Attrib_decision_function t]) ∧
    length ranked
      = Nat.min (Z.to_nat top_k) (length (classes_ (attrib_model g))) ∧
    ((1 ≤ length (classes_ (attrib_model g)))%nat → 1 ≤ top_k → ranked ≠ []) ∧
    (∀ (attrib : AttribResult) (log' : list call),
       safe_attribution g t log = (Return attrib, log') →
       length (top_candidates attrib)
         = Nat.min 3 (length (classes_ (attrib_model g)))).
Proof.
  intros Hscores Hk.
  assert (Hlen : ∀ k : Z, 0 ≤ k →
    length (slice_to (sorted snd (zip (classes_ (attrib_model g))
                                      (decision_function (attrib_model g) t))
                             true) k)
    = Nat.min (Z.to_nat k) (length (classes_ (attrib_model g)))).
  { intros k Hk0. rewrite length_slice_to by done.
    rewrite length_sorted, length_zip. lia. }
  eexists. split; [apply classify_with_confidence_run|].
  split; [by apply Hlen|]. split.
  - intros Hc Hk1 Hnil. apply (f_equal length) in Hnil.
    rewrite Hlen in Hnil by done. simpl in Hnil. lia.
  - intros attrib log' Hrun.
    apply safe_attribution_Return in Hrun as (best & second & _ & _ & -> & _).
    simpl. rewrite length_map, Hlen by lia. done.
Qed.

Lemma ranking_length_is_min_top_k_witness :
  let g := sample_globals (9 # 10) "ai" four_styles [1; 2; 1; 2]%Q in
  ∃ ranked : list (string * Q),
    classify_with_confidence [] (attrib_model g) 3 []
      = (Return ranked, [] ++ [Attrib_decision_function []]) ∧
    length ranked = Nat.min (Z.to_nat 3) (length (classes_ (attrib_model g))) ∧
    ((1 ≤ length (classes_ (attrib_model g)))%nat → 1 ≤ 3 → ranked ≠ []) ∧
    (∀ (attrib : AttribResult) (log' : list call),
       safe_attribution g [] [] = (Return attrib, log') →
       length (top_candidates attrib)
         = Nat.min 3 (length (classes_ (attrib_model g)))).
Proof.
  intros g.
  apply (ranking_length_is_min_top_k g [] 3 []); [reflexivity|lia].
Defined.

(** ** Too few attribution classes *)

(** C8 as stated fails: with an attribution model of one class the import
    of the module succeeds, a request of thirty words that reaches stage 2
    ends in an [IndexError] of its own, and a request of four words is
    answered. *)
Lemma one_class_fails_per_request :
  length (classes_ (sample_attrib ["gpt_style"] [2%Q])) = 1%nat ∧
  run (sample_environment (sample_attrib ["gpt_style"] [2%Q]) ConfigAbsent)
      [thirty_words; four_words]
  = Return
      [(Raise IndexError,
        stage1_calls (strip thirty_words)
        ++ [Attrib_decision_function (strip thirty_words)]);
       (Return (Uncertain "Text too short (4 words)"), [])].
Proof. split; reflexivity. Qed.

(** C8 (amended): when the attribution model has fewer than 2 classes,
    nothing is checked when the module is imported: the import succeeds
    whenever the models and the configuration load.  Every call of
    [safe_attribution], hence every request that reaches stage 2, raises
    [IndexError] after the call to the model, before a confidence gap is
    computed; a request that the length guardrail stops is answered. *)
Theorem too_few_classes_fail_per_request (h : HumanAIModel) (a : AttribModel)
    (f : config_file) (c : gmap string Q) :
  (length (classes_ a) < 2)%nat →
  load_config f = Return c →
  import_module {| human_ai_joblib := ModelLoaded h;
                   attrib_joblib := ModelLoaded a;
                   config_json := f |}
    = Return {| human_ai_model := h; attrib_model := a; CONFIG := c |} ∧
  (∀ (t : text) (log : list call),
     safe_attribution {| human_ai_model := h; attrib_model := a; CONFIG := c |}
       t log
     = (Raise IndexError, log ++ [Attrib_decision_function t])) ∧
  (∀ (t : text) (log : list call),
     passes_length_guardrail
       {| human_ai_model := h; attrib_model := a; CONFIG := c |} t →
     stage1_declines
       {| human_ai_model := h; attrib_model := a; CONFIG := c |} t →
     full_classify {| human_ai_model := h; attrib_model := a; CONFIG := c |}
       t log
     = (Raise IndexError,
        (log ++ stage1_calls (strip t))
        ++ [Attrib_decision_function (strip t)])) ∧
  (∀ (t : text) (min_words : Q) (log : list call),
     c !! "min_words" = Some min_words →
     (inject_Z (Z.of_nat (word_count t)) < min_words)%Q →
     ∃ reason : string,
       full_classify {| human_ai_model := h; attrib_model := a; CONFIG := c |}
         t log
       = (Return (Uncertain reason), log)).
Proof.
  intros Hlen Hcfg. split; [|split; [|split]].
  - unfold import_module. simpl. by rewrite Hcfg.
  - intros t log. by apply safe_attribution_short.
  - intros t log Hpass Hdec.
    rewrite full_classify_stage2 by done.
    by rewrite safe_attribution_short.
  - intros t min_words log Hmin Hlt. eexists.
    by apply (full_classify_short _ t min_words).
Qed.

Lemma too_few_classes_fail_per_request_witness :
  let h := sample_human_ai (9 # 10) "ai" in
  let a := sample_attrib ["gpt_style"] [2%Q] in
  let c := DEFAULT_CONFIG in
  import_module {| human_ai_joblib := ModelLoaded h;
                   attrib_joblib := ModelLoaded a;
                   config_json := ConfigAbsent |}
    = Return {| human_ai_model := h; attrib_model := a; CONFIG := c |} ∧
  (∀ (t : text) (log : list call),
     safe_attribution {| human_ai_model := h; attrib_model := a; CONFIG := c |}
       t log
     = (Raise IndexError, log ++ [Attrib_decision_function t])) ∧
  (∀ (t : text) (log : list call),
     passes_length_guardrail
       {| human_ai_model := h; attrib_model := a; CONFIG := c |} t →
     stage1_declines
       {| human_ai_model := h; attrib_model := a; CONFIG := c |} t →
     full_classify {| human_ai_model := h; attrib_model := a; CONFIG := c |}
       t log
     = (Raise IndexError,
        (log ++ stage1_calls (strip t))
        ++ [Attrib_decision_function (strip t)])) ∧
  (∀ (t : text) (min_words : Q) (log : list call),
     c !! "min_words" = Some min_words →
     (inject_Z (Z.of_nat (word_count t)) < min_words)%Q →
     ∃ reason : string,
       full_classify {| human_ai_model := h; attrib_model := a; CONFIG := c |}
         t log
       = (Return (Uncertain reason), log)).
Proof.
  intros h a c.
  apply (too_few_classes_fail_per_request h a ConfigAbsent c);
    [simpl; lia|reflexivity].
Defined.

(** ** Loading the configuration *)

(** C9 as stated fails: a configuration file that exists and cannot be read
    does not give the defaults; the import raises and no request is
    answered. *)
Lemma unreadable_config_is_fatal :
  load_config ConfigUnreadable = Raise OSError ∧
  load_config ConfigUnreadable ≠ Return DEFAULT_CONFIG ∧
  run (sample_environment (sample_attrib three_styles [2; 1; 0]%Q)
         ConfigUnreadable) [thirty_words]
  = Raise OSError.
Proof. split; [reflexivity|]. split; [discriminate|reflexivity]. Qed.

(** C9 (amended): when there is no file at the configuration path, the
    configuration is the built-in dict [{min_words: 30,
    human_confidence_threshold: 0.5, attrib_confidence_gap: 0.15}] and the
    requests are answered with it.  When the file exists and cannot be read,
    or is not JSON, the import of the module raises: the process ends
    before any request is answered. *)
Theorem config_absent_defaults_else_fatal :
  load_config ConfigAbsent = Return DEFAULT_CONFIG ∧
  DEFAULT_CONFIG !! "min_words" = Some 30%Q ∧
  DEFAULT_CONFIG !! "human_confidence_threshold" = Some (5 # 10)%Q ∧
  DEFAULT_CONFIG !! "attrib_confidence_gap" = Some (15 # 100)%Q ∧
  size DEFAULT_CONFIG = 3%nat ∧
  (∀ (h : HumanAIModel) (a : AttribModel) (requests : list text),
     run {| human_ai_joblib := ModelLoaded h;
            attrib_joblib := ModelLoaded a;
            config_json := ConfigAbsent |} requests
     = Return (map (fun t =>
                      full_classify {| human_ai_model := h;
                                       attrib_model := a;
                                       CONFIG := DEFAULT_CONFIG |} t [])
                   requests)) ∧
  (∀ (env : environment) (requests : list text),
     config_json env = ConfigUnreadable ∨ config_json env = ConfigNotJson →
     ∃ e : exn, import_module env = Raise e ∧ run env requests = Raise e).
Proof.
  split; [reflexivity|]. split; [reflexivity|]. split; [reflexivity|].
  split; [reflexivity|]. split; [by vm_compute|]. split; [reflexivity|].
  intros env requests Hcfg. unfold run, import_module.
  destruct (joblib_load (human_ai_joblib env)) as [h|e]; [|by exists e].
  destruct (joblib_load (attrib_joblib env)) as [a|e]; [|by exists e].
  destruct Hcfg as [-> | ->]; simpl; eauto.
Qed.

(** A JSON object is taken as it is, without the defaults: a file that
    lacks a key is loaded, and the request that reads the key raises
    [KeyError]. *)
Example config_without_key_fails_per_request :
  run (sample_environment (sample_attrib three_styles [2; 1; 0]%Q)
         (ConfigJson ∅)) [four_words]
  = Return [(Raise (KeyError "min_words"), [])].
Proof. reflexivity. Qed.

(** ** The comparisons are made on rounded values *)

(** C10: both guards read values already rounded to 3 decimals.  For a text
    that passes the length guardrail and is labelled ["human"], stage 1
    returns exactly when the threshold is at most [round(abs(score), 3)];
    when stage 2 runs and the first class is not ["human_story"], the
    verdict is ["ai_uncertain"] exactly when [round(best - second, 3)] is
    below the gap threshold.  So a score of 0.4996, whose magnitude is
    under the threshold 0.5, passes the stage-1 test, and a gap of 0.1496,
    under the threshold 0.15, is not reported as uncertain. *)
Theorem guards_compare_rounded_values :
  (∀ (g : Globals) (t : text) (threshold : Q) (log : list call),
     passes_length_guardrail g t →
     hvai_predict (human_ai_model g) (strip t) = "human" →
     CONFIG g !! "human_confidence_threshold" = Some threshold →
     ((∃ hvai : HvaiResult,
         (full_classify g t log).1 = Return (Human (HvaiDetails hvai)))
      ↔ (threshold <=
         round (Qabs (hvai_decision_function (human_ai_model g) (strip t)))
               3)%Q)) ∧
  (∀ (g : Globals) (t : text) (gap_threshold : Q) (log log' : list call)
     (attrib : AttribResult),
     passes_length_guardrail g t →
     stage1_declines g t →
     safe_attribution g (strip t) (log ++ stage1_calls (strip t))
       = (Return attrib, log') →
     predicted_model attrib ≠ "human_story" →
     CONFIG g !! "attrib_confidence_gap" = Some gap_threshold →
     ∃ best second : string * Q,
       slice_to (sorted snd (zip (classes_ (attrib_model g))
                                 (decision_function (attrib_model g)
                                    (strip t))) true) 3 !! 0%nat
         = Some best ∧
       slice_to (sorted snd (zip (classes_ (attrib_model g))
                                 (decision_function (attrib_model g)
                                    (strip t))) true) 3 !! 1%nat
         = Some second ∧
       confidence_gap attrib = round (best.2 - second.2) 3 ∧
       ((full_classify g t log).1 = Return (AiUncertain attrib)
        ↔ (round (best.2 - second.2) 3 < gap_threshold)%Q)) ∧
  (let g := sample_globals (4996 # 10000) "human" three_styles [2; 1; 0]%Q in
   CONFIG g !! "human_confidence_threshold" = Some (5 # 10)%Q ∧
   (Qabs (hvai_decision_function (human_ai_model g) (strip thirty_words))
    < 5 # 10)%Q ∧
   full_classify g thirty_words []
   = (Return (Human (HvaiDetails {| label := "human";
                                    confidence := (1 # 2)%Q;
                                    raw_score := (1 # 2)%Q |})),
      stage1_calls (strip thirty_words))) ∧
  (let g :=
     sample_globals (9 # 10) "ai" three_styles [2; 18504 # 10000; 1]%Q in
   CONFIG g !! "attrib_confidence_gap" = Some (15 # 100)%Q ∧
   (2 - (18504 # 10000) < 15 # 100)%Q ∧
   (full_classify g thirty_words []).1
   = Return (Ai "gpt_style"
               {| predicted_model := "gpt_style";
                  confidence_gap := (3 # 20)%Q;
                  top_candidates :=
                    [("gpt_style", 2%Q); ("llama_style", (37 # 20)%Q);
                     ("human_story", 1%Q)] |})).
Proof.
  split; [|split; [|split]].
  - intros g t threshold log Hlen Hlabel Hcfg. split.
    + intros [hvai Hrun].
      destruct (Qle_bool threshold
                  (round (Qabs (hvai_decision_function (human_ai_model g)
                                  (strip t))) 3)) eqn:Hle.
      { by apply Qle_bool_iff. }
      exfalso. apply Qle_bool_false in Hle.
      rewrite full_classify_stage2 in Hrun; [|done|right; eauto].
      by apply stage2_outcome_not_stage1 in Hrun.
    + intros Hge. eexists.
      by rewrite (full_classify_stage1_exit g t threshold).
  - intros g t gap_threshold log log' attrib Hlen Hdec Hrun Hpred Hcfg.
    pose proof Hrun as Hinv.
    apply safe_attribution_Return in Hinv
      as (best & second & H0 & H1 & Hattrib & _).
    exists best, second. split; [done|]. split; [done|].
    split; [by rewrite Hattrib|].
    rewrite full_classify_stage2, Hrun by done.
    unfold stage2_outcome. apply String.eqb_neq in Hpred.
    rewrite Hpred, Hcfg.
    replace (round (best.2 - second.2) 3) with (confidence_gap attrib)
      by (by rewrite Hattrib).
    destruct (Qlt_bool (confidence_gap attrib) gap_threshold) eqn:Hlt; simpl.
    + apply Qlt_bool_true in Hlt. done.
    + apply Qlt_bool_false in Hlt. split; [done|]. intros ?. by destruct Hlt.
  - cbv zeta. split; [reflexivity|]. split; reflexivity.
  - cbv zeta. split; [reflexivity|]. split; reflexivity.
Qed.

(** The converse also happens: a magnitude equal to a threshold of four
    decimals is rounded below it, and stage 1 does not return. *)
Example rounded_confidence_under_fine_threshold :
  let g :=
    {| human_ai_model := sample_human_ai (5004 # 10000) "human";
       attrib_model := sample_attrib three_styles [2; 1; 0]%Q;
       CONFIG := <["human_confidence_threshold" := (5004 # 10000)%Q]>
                   DEFAULT_CONFIG |} in
  (5004 # 10000 <= Qabs (hvai_decision_function (human_ai_model g)
                           (strip thirty_words)))%Q ∧
  final_label <$>
    match (full_classify g thirty_words []).1 with
    | Return v => Some v
    | Raise _ => None
    end
  = Some "ai".
Proof. split; [by vm_compute|reflexivity]. Qed.

(** ** The scenarios of the specification *)

Example scenario_1_short_text :
  (full_classify (sample_globals (9 # 10) "ai" three_styles [2; 1; 0]%Q)
     ten_words []).1
  = Return (Uncertain "Text too short (10 words)").
Proof. reflexivity. Qed.

Example scenario_2_confident_human :
  full_classify (sample_globals (8 # 10) "human" three_styles [2; 1; 0]%Q)
    thirty_words []
  = (Return (Human (HvaiDetails {| label := "human";
                                   confidence := (4 # 5)%Q;
                                   raw_score := (4 # 5)%Q |})),
     stage1_calls (strip thirty_words)).
Proof. reflexivity. Qed.

Example scenario_3_attributed :
  (full_classify
     (sample_globals (-9 # 10) "ai" three_styles [2; 17 # 10; 12 # 10]%Q)
     thirty_words []).1
  = Return (Ai "gpt_style"
              {| predicted_model := "gpt_style";
                 confidence_gap := (3 # 10)%Q;
                 top_candidates :=
                   [("gpt_style", 2%Q); ("llama_style", (17 # 10)%Q);
                    ("human_story", (6 # 5)%Q)] |}).
Proof. reflexivity. Qed.

Example scenario_4_thin_margin :
  final_label <$>
    match (full_classify
             (sample_globals (-9 # 10) "ai" three_styles
                [2; 195 # 100; 12 # 10]%Q)
             thirty_words []).1 with
    | Return v => Some v
    | Raise _ => None
    end
  = Some "ai_uncertain".
Proof. reflexivity. Qed.

Example scenario_5_sentinel :
  final_label <$>
    match (full_classify
             (sample_globals (-9 # 10) "ai" three_styles
                [2; 195 # 100; 21 # 10]%Q)
             thirty_words []).1 with
    | Return v => Some v
    | Raise _ => None
    end
  = Some "human".
Proof. reflexivity. Qed.

(** * Further properties of the module *)

(** ** The word count *)

Lemma split_from_lstrip (t : text) : split_from [] (lstrip t) = split_from [] t.
Proof.
  induction t as [|c t IH]; simpl; [done|].
  destruct (isspace c) eqn:Hc; [done|]. simpl. by rewrite Hc.
Qed.

Lemma split_from_app_space (cur t : text) (c : N) :
  isspace c = true → split_from cur (t ++ [c]) = split_from cur t.
Proof.
  intros Hc. revert cur.
  induction t as [|d t IH]; intros cur; simpl.
  - rewrite Hc. by destruct cur.
  - destruct (isspace d); [|apply IH].
    rewrite IH. by destruct cur.
Qed.

Lemma rstrip_app (t : text) (c : N) :
  rstrip (t ++ [c]) = if isspace c then rstrip t else t ++ [c].
Proof.
  unfold rstrip. rewrite rev_app_distr. simpl.
  destruct (isspace c); [done|].
  simpl. by rewrite rev_involutive.
Qed.

Lemma split_from_rstrip (cur t : text) :
  split_from cur (rstrip t) = split_from cur t.
Proof.
  induction t as [|c t IH] using rev_ind; [done|].
  rewrite rstrip_app. destruct (isspace c) eqn:Hc; [|done].
  by rewrite split_from_app_space.
Qed.

Lemma split_strip (t : text) : split (strip t) = split t.
Proof.
  unfold split, strip. by rewrite split_from_rstrip, split_from_lstrip.
Qed.

Lemma lstrip_app (t : text) (c : N) :
  lstrip (t ++ [c]) =
    match lstrip t with
    | [] => lstrip [c]
    | _ => lstrip t ++ [c]
    end.
Proof.
  induction t as [|d t IH]; simpl; [done|].
  by destruct (isspace d).
Qed.

Lemma lstrip_lstrip (t : text) : lstrip (lstrip t) = lstrip t.
Proof.
  induction t as [|c t IH]; simpl; [done|].
  destruct (isspace c) eqn:Hc; [done|]. simpl. by rewrite Hc.
Qed.

Lemma rstrip_rstrip (t : text) : rstrip (rstrip t) = rstrip t.
Proof. unfold rstrip. by rewrite rev_involutive, lstrip_lstrip. Qed.

Lemma lstrip_rstrip (t : text) : lstrip (rstrip t) = rstrip (lstrip t).
Proof.
  induction t as [|c t IH] using rev_ind; [done|].
  rewrite rstrip_app.
  destruct (isspace c) eqn:Hc; rewrite !lstrip_app.
  - rewrite IH. destruct (lstrip t) as [|d u] eqn:Hu.
    + cbn [lstrip]. by rewrite Hc.
    + by rewrite rstrip_app, Hc.
  - destruct (lstrip t) as [|d u] eqn:Hu.
    + cbn [lstrip]. rewrite Hc. change [c] with ([] ++ [c]) at 2.
      by rewrite rstrip_app, Hc.
    + by rewrite rstrip_app, Hc.
Qed.

Lemma strip_strip (t : text) : strip (strip t) = strip t.
Proof.
  unfold strip.
  by rewrite lstrip_rstrip, lstrip_lstrip, rstrip_rstrip.
Qed.

Lemma split_from_words (cur t : text) :
  Forall (fun c => isspace c = false) cur →
  Forall (fun w : text => w ≠ [] ∧ Forall (fun c => isspace c = false) w)
         (split_from cur t).
Proof.
  revert cur. induction t as [|c t IH]; intros cur Hcur; simpl.
  - destruct cur as [|d cur]; [constructor|].
    constructor; [|constructor]. split.
    + simpl. intros H. by apply app_eq_nil in H as [_ ?].
    + apply Forall_forall. intros x Hx.
      rewrite Forall_forall in Hcur. apply Hcur.
      by apply list_elem_of_In, in_rev, list_elem_of_In in Hx.
  - destruct (isspace c) eqn:Hc.
    + destruct cur as [|d cur]; [by apply IH|].
      constructor; [|by apply IH]. split.
      * simpl. intros H. by apply app_eq_nil in H as [_ ?].
      * apply Forall_forall. intros x Hx.
        rewrite Forall_forall in Hcur. apply Hcur.
        by apply list_elem_of_In, in_rev, list_elem_of_In in Hx.
    + apply IH. by constructor.
Qed.

Lemma split_from_all_space (t : text) :
  Forall (fun c => isspace c = true) t → split_from [] t = [].
Proof.
  induction 1 as [|c t Hc _ IH]; simpl; [done|]. by rewrite Hc.
Qed.

Lemma split_from_nil_inv (cur t : text) :
  split_from cur t = [] → cur = [] ∧ Forall (fun c => isspace c = true) t.
Proof.
  revert cur. induction t as [|c t IH]; intros cur; simpl.
  - by destruct cur.
  - destruct (isspace c) eqn:Hc.
    + destruct cur; [|done]. intros H.
      apply IH in H as [_ H]. split; [done|by constructor].
    + intros H. by apply IH in H as [? _].
Qed.

Lemma word_count_blank (t : text) :
  Forall (fun c => isspace c = true) t → word_count t = 0%nat.
Proof.
  intros H. unfold word_count. rewrite split_strip. unfold split.
  by rewrite split_from_all_space.
Qed.

(** X1: the words of [text.split()] are not empty and hold no whitespace
    character. *)
Theorem split_words_nonempty_no_space (t : text) :
  Forall (fun w : text => w ≠ [] ∧ Forall (fun c => isspace c = false) w)
         (split t).
Proof. by apply split_from_words. Qed.

(** X2: the call to [strip] does not change the count: the number of words
    of the stripped text is the number of words of the text as given. *)
Theorem word_count_ignores_strip (t : text) :
  word_count t = length (split t).
Proof. unfold word_count. by rewrite split_strip. Qed.

(** X3: the word count is 0 exactly for the texts made of whitespace only,
    the empty text among them. *)
Theorem word_count_zero_iff_blank (t : text) :
  word_count t = 0%nat ↔ Forall (fun c => isspace c = true) t.
Proof.
  unfold word_count. rewrite split_strip. unfold split. split.
  - intros H. apply length_zero_iff_nil in H.
    by apply split_from_nil_inv in H as [_ ?].
  - intros H. by rewrite split_from_all_space.
Qed.

(** ** The shape of a run of [full_classify] *)

Lemma safe_attribution_cases (g : Globals) (t : text) (log : list call) :
  safe_attribution g t log =
    (match slice_to (sorted snd (zip (classes_ (attrib_model g))
                                     (decision_function (attrib_model g) t))
                            true) 3 with
     | best :: second :: rest =>
         Return {| predicted_model := best.1;
                   confidence_gap := round (best.2 - second.2) 3;
                   top_candidates :=
                     map (fun '(m, s) => (m, round s 3))
                         (best :: second :: rest) |}
     | _ => Raise IndexError
     end,
     log ++ [Attrib_decision_function t]).
Proof.
  unfold safe_attribution, bind.
  rewrite classify_with_confidence_run. unfold index.
  destruct (slice_to _ 3) as [|[bm bs] [|[sm ss] rest]]; done.
Qed.

Lemma full_classify_cases (g : Globals) (t : text) (log : list call) :
  full_classify g t log =
    match CONFIG g !! "min_words" with
    | None => (Raise (KeyError "min_words"), log)
    | Some min_words =>
        if Qlt_bool (inject_Z (Z.of_nat (word_count t))) min_words
        then (Return (Uncertain ("Text too short ("
                                 +:+ (str (word_count t) +:+ " words)"))),
              log)
        else
          let hvai :=
            {| label := hvai_predict (human_ai_model g) (strip t);
               confidence :=
                 round (Qabs (hvai_decision_function (human_ai_model g)
                                (strip t))) 3;
               raw_score :=
                 round (hvai_decision_function (human_ai_model g)
                          (strip t)) 3 |} in
          let log1 := log ++ stage1_calls (strip t) in
          let stage2 :=
            stage2_outcome g (safe_attribution g (strip t) log1) in
          if String.eqb (label hvai) "human"
          then
            match CONFIG g !! "human_confidence_threshold" with
            | None => (Raise (KeyError "human_confidence_threshold"), log1)
            | Some threshold =>
                if Qle_bool threshold (confidence hvai)
                then (Return (Human (HvaiDetails hvai)), log1)
                else stage2
            end
          else stage2
    end.
Proof.
  destruct (CONFIG g !! "min_words") as [min_words|] eqn:Hmin.
  2:{ unfold full_classify, bind, getitem. by rewrite Hmin. }
  destruct (Qlt_bool _ min_words) eqn:Hlt.
  { apply Qlt_bool_true in Hlt. by apply (full_classify_short g t min_words). }
  apply Qlt_bool_false in Hlt.
  assert (Hpass : passes_length_guardrail g t) by (by exists min_words).
  cbv zeta. cbn [label confidence].
  destruct (String.eqb _ "human") eqn:Hlabel.
  - apply String.eqb_eq in Hlabel.
    destruct (CONFIG g !! "human_confidence_threshold") as [thr|] eqn:Hthr.
    + destruct (Qle_bool thr _) eqn:Hle.
      * apply Qle_bool_iff in Hle. by apply (full_classify_stage1_exit g t thr).
      * apply Qle_bool_false in Hle.
        apply full_classify_stage2; [done|]. right. eauto.
    + rewrite full_classify_long by done.
      unfold bind at 1. rewrite human_ai_decision_run.
      cbn [label]. rewrite Hlabel. simpl String.eqb.
      unfold bind, getitem. by rewrite Hthr.
  - apply String.eqb_neq in Hlabel.
    apply full_classify_stage2; [done|]. by left.
Qed.

(** X4: [full_classify] sees a text only through [text.strip()]: a text and
    its stripped form give the same outcome and the same calls to the
    models. *)
Theorem full_classify_ignores_outer_whitespace (g : Globals) (t : text)
    (log : list call) :
  full_classify g (strip t) log = full_classify g t log.
Proof.
  rewrite !full_classify_cases. unfold word_count.
  by rewrite !strip_strip.
Qed.

(** X5: a text of whitespace only (the empty text too) is answered
    ["Text too short (0 words)"] without any call to a model, as soon as
    [CONFIG["min_words"]] is positive. *)
Theorem blank_text_is_too_short (g : Globals) (t : text) (min_words : Q)
    (log : list call) :
  Forall (fun c => isspace c = true) t →
  CONFIG g !! "min_words" = Some min_words →
  (0 < min_words)%Q →
  full_classify g t log =
    (Return (Uncertain "Text too short (0 words)"), log).
Proof.
  intros Hblank Hcfg Hpos.
  apply word_count_blank in Hblank.
  rewrite (full_classify_short g t min_words log Hcfg); rewrite Hblank; done.
Qed.

Lemma blank_text_is_too_short_witness :
  full_classify (sample_globals (9 # 10) "ai" three_styles [2; 1; 0]%Q)
    (text_of_string "   ") []
  = (Return (Uncertain "Text too short (0 words)"), []).
Proof.
  apply (blank_text_is_too_short _ (text_of_string "   ") 30%Q).
  - repeat constructor.
  - reflexivity.
  - reflexivity.
Defined.

(** X6: the verdict ["uncertain"] comes from the length guardrail and from
    nowhere else: with [CONFIG["min_words"]] present, [full_classify]
    returns it exactly when the word count is below that number (a text of
    exactly [min_words] words is classified), and then no model was
    called. *)
Theorem uncertain_iff_below_min_words (g : Globals) (t : text)
    (min_words : Q) (log : list call) :
  CONFIG g !! "min_words" = Some min_words →
  ((∃ (reason : string) (log' : list call),
      full_classify g t log = (Return (Uncertain reason), log'))
   ↔ (inject_Z (Z.of_nat (word_count t)) < min_words)%Q) ∧
  (∀ (reason : string) (log' : list call),
     full_classify g t log = (Return (Uncertain reason), log') →
     log' = log).
Proof.
  intros Hcfg.
  assert (Hinv : ∀ reason log',
    full_classify g t log = (Return (Uncertain reason), log') →
    (inject_Z (Z.of_nat (word_count t)) < min_words)%Q ∧ log' = log).
  { intros reason log'. rewrite full_classify_cases, Hcfg.
    destruct (Qlt_bool _ min_words) eqn:Hlt.
    { apply Qlt_bool_true in Hlt. intros [= _ <-]. done. }
    cbv zeta. cbn [label confidence].
    assert (Hstage2 : ∀ r,
      stage2_outcome g r ≠ (Return (Uncertain reason), log')).
    { intros [[attrib|e] l]; unfold stage2_outcome; [|done].
      destruct (String.eqb (predicted_model attrib) _); [done|].
      destruct (CONFIG g !! "attrib_confidence_gap") as [gap_threshold|];
        [|done].
      by destruct (Qlt_bool (confidence_gap attrib) gap_threshold). }
    destruct (String.eqb _ "human"); [|by intros ?%Hstage2].
    destruct (CONFIG g !! "human_confidence_threshold"); [|done].
    destruct (Qle_bool _ _); [done|by intros ?%Hstage2]. }
  split; [split|].
  - intros (reason & log' & Hrun). by apply Hinv in Hrun as [? _].
  - intros Hlt. eexists _, _. by apply (full_classify_short g t min_words).
  - intros reason log' Hrun. by apply Hinv in Hrun as [_ ?].
Qed.

Lemma uncertain_iff_below_min_words_witness :
  let g := sample_globals (9 # 10) "ai" three_styles [2; 1; 0]%Q in
  ((∃ (reason : string) (log' : list call),
      full_classify g thirty_words [] = (Return (Uncertain reason), log'))
   ↔ (inject_Z (Z.of_nat (word_count thirty_words)) < 30)%Q) ∧
  (∀ (reason : string) (log' : list call),
     full_classify g thirty_words [] = (Return (Uncertain reason), log') →
     log' = []).
Proof.
  intros g.
  apply (uncertain_iff_below_min_words g thirty_words 30%Q []).
  reflexivity.
Defined.

(** X7: the calls of one request.  Whatever the outcome, [full_classify]
    makes no call, or the two calls of stage 1, or these two followed by one
    call to the attribution model; every call is made on the stripped
    text. *)
Theorem full_classify_call_discipline (g : Globals) (t : text)
    (log log' : list call) (o : outcome verdict) :
  full_classify g t log = (o, log') →
  log' = log ∨
  log' = log ++ stage1_calls (strip t) ∨
  log' = (log ++ stage1_calls (strip t))
         ++ [Attrib_decision_function (strip t)].
Proof.
  rewrite full_classify_cases.
  assert (Hstage2 : ∀ l,
    (stage2_outcome g (safe_attribution g (strip t) l)).2
    = l ++ [Attrib_decision_function (strip t)]).
  { intros l. rewrite safe_attribution_cases. unfold stage2_outcome.
    destruct (slice_to _ 3) as [|b [|s rest]]; [done|done|].
    destruct (String.eqb _ "human_story"); [done|].
    destruct (CONFIG g !! "attrib_confidence_gap") as [gap_threshold|];
      [|done].
    by destruct (Qlt_bool _ gap_threshold). }
  destruct (CONFIG g !! "min_words"); [|intros [= _ <-]; by left].
  destruct (Qlt_bool _ _); [intros [= _ <-]; by left|].
  cbv zeta. cbn [label confidence].
  destruct (String.eqb _ "human").
  - destruct (CONFIG g !! "human_confidence_threshold");
      [|intros [= _ <-]; right; by left].
    destruct (Qle_bool _ _); [intros [= _ <-]; right; by left|].
    intros H. apply (f_equal snd) in H. simpl in H.
    rewrite Hstage2 in H. by right; right.
  - intros H. apply (f_equal snd) in H. simpl in H.
    rewrite Hstage2 in H. by right; right.
Qed.

Lemma full_classify_call_discipline_witness :
  let g := sample_globals (9 # 10) "ai" three_styles [2; 1; 0]%Q in
  let o := (full_classify g thirty_words []).1 in
  let log' := (full_classify g thirty_words []).2 in
  log' = [] ∨
  log' = [] ++ stage1_calls (strip thirty_words) ∨
  log' = ([] ++ stage1_calls (strip thirty_words))
         ++ [Attrib_decision_function (strip thirty_words)].
Proof.
  intros g o log'.
  apply (full_classify_call_discipline g thirty_words [] log' o).
  reflexivity.
Defined.

(** ** What a verdict and an exception tell *)

Lemma stage2_outcome_inv (g : Globals) (t : text) (log log' : list call)
    (v : verdict) :
  stage2_outcome g (safe_attribution g t log) = (Return v, log') →
  ∃ attrib : AttribResult,
    safe_attribution g t log = (Return attrib, log') ∧
    (v = Human (AttribDetails attrib) ∧
     predicted_model attrib = "human_story"
     ∨ predicted_model attrib ≠ "human_story" ∧
       ∃ gap_threshold : Q,
         CONFIG g !! "attrib_confidence_gap" = Some gap_threshold ∧
         (v = AiUncertain attrib ∧
          (confidence_gap attrib < gap_threshold)%Q
          ∨ v = Ai (predicted_model attrib) attrib ∧
            (gap_threshold <= confidence_gap attrib)%Q)).
Proof.
  destruct (safe_attribution g t log) as [[attrib|e] l]; [|done].
  unfold stage2_outcome.
  destruct (String.eqb (predicted_model attrib) "human_story") eqn:Hpred.
  - apply String.eqb_eq in Hpred. intros [= <- <-]. exists attrib.
    split; [done|]. by left.
  - apply String.eqb_neq in Hpred.
    destruct (CONFIG g !! "attrib_confidence_gap") as [gap_threshold|];
      [|done].
    destruct (Qlt_bool (confidence_gap attrib) gap_threshold) eqn:Hlt;
      intros [= <- <-]; exists attrib; (split; [done|]); right;
      (split; [done|]); exists gap_threshold; (split; [done|]).
    + left. split; [done|]. by apply Qlt_bool_true.
    + right. split; [done|]. apply Qlt_bool_false in Hlt.
      by apply Qnot_lt_le.
Qed.

Lemma full_classify_Return_inv (g : Globals) (t : text) (log log' : list call)
    (v : verdict) :
  full_classify g t log = (Return v, log') →
  (∃ min_words : Q,
     CONFIG g !! "min_words" = Some min_words ∧
     (inject_Z (Z.of_nat (word_count t)) < min_words)%Q ∧
     v = Uncertain ("Text too short (" +:+ (str (word_count t) +:+ " words)")) ∧
     log' = log)
  ∨ (passes_length_guardrail g t ∧
     ∃ (hvai : HvaiResult) (threshold : Q),
       human_ai_decision g (strip t) log = (Return hvai, log') ∧
       v = Human (HvaiDetails hvai) ∧
       label hvai = "human" ∧
       CONFIG g !! "human_confidence_threshold" = Some threshold ∧
       (threshold <= confidence hvai)%Q)
  ∨ (passes_length_guardrail g t ∧ stage1_declines g t ∧
     stage2_outcome g
       (safe_attribution g (strip t) (log ++ stage1_calls (strip t)))
     = (Return v, log')).
Proof.
  rewrite full_classify_cases.
  destruct (CONFIG g !! "min_words") as [min_words|] eqn:Hmin; [|done].
  destruct (Qlt_bool _ min_words) eqn:Hlt.
  { apply Qlt_bool_true in Hlt. intros [= <- <-]. left. by exists min_words. }
  apply Qlt_bool_false in Hlt.
  assert (Hpass : passes_length_guardrail g t) by (by exists min_words).
  cbv zeta. cbn [label confidence].
  destruct (String.eqb _ "human") eqn:Hlabel.
  - apply String.eqb_eq in Hlabel.
    destruct (CONFIG g !! "human_confidence_threshold") as [thr|] eqn:Hthr;
      [|done].
    destruct (Qle_bool thr _) eqn:Hle.
    + apply Qle_bool_iff in Hle. intros [= <- <-]. right; left.
      split; [done|]. eexists _, thr.
      split; [apply human_ai_decision_run|]. done.
    + apply Qle_bool_false in Hle. intros Hrun. right; right.
      split; [done|]. split; [|done]. right. eauto.
  - apply String.eqb_neq in Hlabel. intros Hrun. right; right.
    split; [done|]. split; [|done]. by left.
Qed.

(** X8: the verdict ["ai"] names a class of the attribution model that is
    not ["human_story"]: it is the [predicted_model] of the details, the
    class that [safe_attribution] ranked first after stage 1 declined, and
    its confidence gap is at least [CONFIG["attrib_confidence_gap"]]. *)
Theorem ai_verdict_is_justified (g : Globals) (t : text)
    (log log' : list call) (model : string) (attrib : AttribResult) :
  full_classify g t log = (Return (Ai model attrib), log') →
  model = predicted_model attrib ∧
  model ≠ "human_story" ∧
  model ∈ classes_ (attrib_model g) ∧
  stage1_declines g t ∧
  safe_attribution g (strip t) (log ++ stage1_calls (strip t))
    = (Return attrib, log') ∧
  ∃ gap_threshold : Q,
    CONFIG g !! "attrib_confidence_gap" = Some gap_threshold ∧
    (gap_threshold <= confidence_gap attrib)%Q.
Proof.
  intros Hrun.
  apply full_classify_Return_inv in Hrun
    as [(? & _ & _ & ? & _)|[(_ & ? & ? & _ & ? & _)|(_ & Hdec & Hrun)]];
    [done|done|].
  apply stage2_outcome_inv in Hrun
    as (a & Hsafe & [[? _]|(Hne & thr & Hthr & [[? _]|[[= -> ->] Hge]])]);
    [done|done|].
  split; [done|]. split; [done|]. split; [|eauto 10].
  pose proof Hsafe as Hinv.
  apply safe_attribution_Return in Hinv as (best & second & H0 & _ & -> & _).
  simpl. destruct (slice_to_take
    (sorted snd (zip (classes_ (attrib_model g))
                     (decision_function (attrib_model g) (strip t))) true) 3)
    as [n Hn].
  rewrite Hn in H0. apply lookup_take_Some in H0 as [H0 _].
  apply list_elem_of_lookup_2 in H0. rewrite sorted_Permutation in H0.
  destruct best as [bm bs]. by apply elem_of_zip_l in H0.
Qed.

Lemma ai_verdict_is_justified_witness :
  let g := sample_globals (9 # 10) "ai" three_styles [2; 17 # 10; 12 # 10]%Q in
  let attrib :=
    {| predicted_model := "gpt_style";
       confidence_gap := (3 # 10)%Q;
       top_candidates :=
         [("gpt_style", 2%Q); ("llama_style", (17 # 10)%Q);
          ("human_story", (6 # 5)%Q)] |} in
  let log' :=
    ([] ++ stage1_calls (strip thirty_words))
    ++ [Attrib_decision_function (strip thirty_words)] in
  "gpt_style" = predicted_model attrib ∧
  "gpt_style" ≠ "human_story" ∧
  "gpt_style" ∈ classes_ (attrib_model g) ∧
  stage1_declines g thirty_words ∧
  safe_attribution g (strip thirty_words)
    ([] ++ stage1_calls (strip thirty_words)) = (Return attrib, log') ∧
  ∃ gap_threshold : Q,
    CONFIG g !! "attrib_confidence_gap" = Some gap_threshold ∧
    (gap_threshold <= confidence_gap attrib)%Q.
Proof.
  intros g attrib log'.
  apply (ai_verdict_is_justified g thirty_words [] log' "gpt_style" attrib).
  reflexivity.
Defined.

(** X9: the verdict ["ai_uncertain"] is given only after stage 1 declined,
    for a first class that is not ["human_story"] and a confidence gap
    strictly below [CONFIG["attrib_confidence_gap"]]. *)
Theorem ai_uncertain_verdict_is_justified (g : Globals) (t : text)
    (log log' : list call) (attrib : AttribResult) :
  full_classify g t log = (Return (AiUncertain attrib), log') →
  predicted_model attrib ≠ "human_story" ∧
  stage1_declines g t ∧
  safe_attribution g (strip t) (log ++ stage1_calls (strip t))
    = (Return attrib, log') ∧
  ∃ gap_threshold : Q,
    CONFIG g !! "attrib_confidence_gap" = Some gap_threshold ∧
    (confidence_gap attrib < gap_threshold)%Q.
Proof.
  intros Hrun.
  apply full_classify_Return_inv in Hrun
    as [(? & _ & _ & ? & _)|[(_ & ? & ? & _ & ? & _)|(_ & Hdec & Hrun)]];
    [done|done|].
  apply stage2_outcome_inv in Hrun
    as (a & Hsafe & [[? _]|(Hne & thr & Hthr & [[[= ->] Hlt]|[? _]])]);
    [done| |done].
  eauto 10.
Qed.

Lemma ai_uncertain_verdict_is_justified_witness :
  let g :=
    sample_globals (9 # 10) "ai" three_styles [2; 195 # 100; 12 # 10]%Q in
  let attrib :=
    {| predicted_model := "gpt_style";
       confidence_gap := (1 # 20)%Q;
       top_candidates :=
         [("gpt_style", 2%Q); ("llama_style", (39 # 20)%Q);
          ("human_story", (6 # 5)%Q)] |} in
  let log' :=
    ([] ++ stage1_calls (strip thirty_words))
    ++ [Attrib_decision_function (strip thirty_words)] in
  predicted_model attrib ≠ "human_story" ∧
  stage1_declines g thirty_words ∧
  safe_attribution g (strip thirty_words)
    ([] ++ stage1_calls (strip thirty_words)) = (Return attrib, log') ∧
  ∃ gap_threshold : Q,
    CONFIG g !! "attrib_confidence_gap" = Some gap_threshold ∧
    (confidence_gap attrib < gap_threshold)%Q.
Proof.
  intros g attrib log'.
  apply (ai_uncertain_verdict_is_justified g thirty_words [] log' attrib).
  reflexivity.
Defined.

(** X10: the verdict ["human"] has two origins and its details tell which:
    the result of [human_ai_decision], with the label ["human"] and a
    confidence of at least [CONFIG["human_confidence_threshold"]], reached
    without a call to the attribution model; or an attribution result whose
    predicted class is ["human_story"], reached after stage 1 declined. *)
Theorem human_verdict_is_justified (g : Globals) (t : text)
    (log log' : list call) (d : details) :
  full_classify g t log = (Return (Human d), log') →
  match d with
  | HvaiDetails hvai =>
      human_ai_decision g (strip t) log = (Return hvai, log') ∧
      label hvai = "human" ∧
      (∃ threshold : Q,
         CONFIG g !! "human_confidence_threshold" = Some threshold ∧
         (threshold <= confidence hvai)%Q) ∧
      log' = log ++ stage1_calls (strip t)
  | AttribDetails attrib =>
      stage1_declines g t ∧
      safe_attribution g (strip t) (log ++ stage1_calls (strip t))
        = (Return attrib, log') ∧
      predicted_model attrib = "human_story"
  end.
Proof.
  intros Hrun.
  apply full_classify_Return_inv in Hrun
    as [(? & _ & _ & ? & _)
       |[(_ & hvai & thr & Hh & [= ->] & Hlabel & Hthr & Hge)
        |(_ & Hdec & Hrun)]]; [done| |].
  - split; [done|]. split; [done|]. split; [eauto|].
    rewrite human_ai_decision_run in Hh. by injection Hh as _ <-.
  - apply stage2_outcome_inv in Hrun
      as (a & Hsafe & [[[= ->] Hpred]|(_ & ? & _ & [[? _]|[? _]])]);
      done.
Qed.

Lemma human_verdict_is_justified_witness :
  let g := sample_globals (9 # 10) "ai" three_styles [1; 1; 3]%Q in
  let attrib :=
    {| predicted_model := "human_story";
       confidence_gap := 2%Q;
       top_candidates :=
         [("human_story", 3%Q); ("gpt_style", 1%Q); ("llama_style", 1%Q)] |} in
  let log' :=
    ([] ++ stage1_calls (strip thirty_words))
    ++ [Attrib_decision_function (strip thirty_words)] in
  stage1_declines g thirty_words ∧
  safe_attribution g (strip thirty_words)
    ([] ++ stage1_calls (strip thirty_words)) = (Return attrib, log') ∧
  predicted_model attrib = "human_story".
Proof.
  intros g attrib log'.
  apply (human_verdict_is_justified g thirty_words [] log'
           (AttribDetails attrib)).
  reflexivity.
Defined.

Lemma stage2_outcome_Raise_inv (g : Globals) (t : text) (log log' : list call)
    (e : exn) :
  stage2_outcome g (safe_attribution g t log) = (Raise e, log') →
  log' = log ++ [Attrib_decision_function t] ∧
  (e = IndexError ∧
   (length (zip (classes_ (attrib_model g))
                (decision_function (attrib_model g) t)) < 2)%nat
   ∨ e = KeyError "attrib_confidence_gap" ∧
     CONFIG g !! "attrib_confidence_gap" = None).
Proof.
  rewrite safe_attribution_cases.
  assert (Hlen : length (slice_to (sorted snd
                   (zip (classes_ (attrib_model g))
                        (decision_function (attrib_model g) t)) true) 3)
                 = Nat.min 3 (length (zip (classes_ (attrib_model g))
                                 (decision_function (attrib_model g) t)))).
  { rewrite length_slice_to by lia. by rewrite length_sorted. }
  unfold stage2_outcome.
  destruct (slice_to _ 3) as [|b [|s rest]].
  - intros [= <- <-]. split; [done|]. left. split; [done|]. cbn [length] in Hlen. lia.
  - intros [= <- <-]. split; [done|]. left. split; [done|]. cbn [length] in Hlen. lia.
  - destruct (String.eqb _ "human_story"); [done|].
    destruct (CONFIG g !! "attrib_confidence_gap") as [gap_threshold|] eqn:Hgap.
    + by destruct (Qlt_bool _ gap_threshold).
    + intros [= <- <-]. split; [done|]. by right.
Qed.

(** The exceptions of [full_classify] in this model, where the scores of
    the attribution model are a list and the values of [CONFIG] numbers. *)
Lemma full_classify_Raise_inv (g : Globals) (t : text)
    (log log' : list call) (e : exn) :
  full_classify g t log = (Raise e, log') →
  (e = KeyError "min_words" ∧ CONFIG g !! "min_words" = None ∧ log' = log)
  ∨ (e = KeyError "human_confidence_threshold" ∧
     CONFIG g !! "human_confidence_threshold" = None ∧
     hvai_predict (human_ai_model g) (strip t) = "human" ∧
     log' = log ++ stage1_calls (strip t))
  ∨ (e = KeyError "attrib_confidence_gap" ∧
     CONFIG g !! "attrib_confidence_gap" = None ∧
     log' = (log ++ stage1_calls (strip t))
            ++ [Attrib_decision_function (strip t)])
  ∨ (e = IndexError ∧
     (length (zip (classes_ (attrib_model g))
                  (decision_function (attrib_model g) (strip t))) < 2)%nat ∧
     log' = (log ++ stage1_calls (strip t))
            ++ [Attrib_decision_function (strip t)]).
Proof.
  rewrite full_classify_cases.
  assert (Hstage2 :
    stage2_outcome g
      (safe_attribution g (strip t) (log ++ stage1_calls (strip t)))
    = (Raise e, log') →
    (e = KeyError "attrib_confidence_gap" ∧
     CONFIG g !! "attrib_confidence_gap" = None ∧
     log' = (log ++ stage1_calls (strip t))
            ++ [Attrib_decision_function (strip t)])
    ∨ (e = IndexError ∧
       (length (zip (classes_ (attrib_model g))
                    (decision_function (attrib_model g) (strip t))) < 2)%nat ∧
       log' = (log ++ stage1_calls (strip t))
              ++ [Attrib_decision_function (strip t)])).
  { intros H. apply stage2_outcome_Raise_inv in H as [-> [[-> ?]|[-> ?]]];
      [by right|by left]. }
  destruct (CONFIG g !! "min_words") as [min_words|] eqn:Hmin;
    [|intros [= <- <-]; by left].
  destruct (Qlt_bool _ min_words); [done|].
  cbv zeta. cbn [label confidence].
  destruct (String.eqb _ "human") eqn:Hlabel.
  - apply String.eqb_eq in Hlabel.
    destruct (CONFIG g !! "human_confidence_threshold") as [thr|] eqn:Hthr.
    + destruct (Qle_bool thr _); [done|].
      intros H. right; right. by apply Hstage2.
    + intros [= <- <-]. right; left. done.
  - intros H. right; right. by apply Hstage2.
Qed.

(** X12: with the three keys in [CONFIG] and, for the text at hand, at least
    two classes with a score each, [full_classify] raises nothing: it
    returns a verdict. *)
Theorem full_classify_returns_when_configured (g : Globals) (t : text)
    (log : list call) :
  is_Some (CONFIG g !! "min_words") →
  is_Some (CONFIG g !! "human_confidence_threshold") →
  is_Some (CONFIG g !! "attrib_confidence_gap") →
  (2 ≤ length (classes_ (attrib_model g)))%nat →
  (2 ≤ length (decision_function (attrib_model g) (strip t)))%nat →
  ∃ (v : verdict) (log' : list call),
    full_classify g t log = (Return v, log').
Proof.
  intros [m Hm] [thr Hthr] [gt Hgt] Hc Hs.
  destruct (full_classify g t log) as [[v|e] log'] eqn:Hrun; [eauto|].
  exfalso. apply full_classify_Raise_inv in Hrun
    as [(_ & ? & _)|[(_ & ? & _)|[(_ & ? & _)|(_ & Hlen & _)]]];
    [congruence|congruence|congruence|].
  rewrite length_zip in Hlen. lia.
Qed.

Lemma full_classify_returns_when_configured_witness :
  ∃ (v : verdict) (log' : list call),
    full_classify (sample_globals (9 # 10) "ai" three_styles [2; 1; 0]%Q)
      thirty_words [] = (Return v, log').
Proof.
  apply (full_classify_returns_when_configured
           (sample_globals (9 # 10) "ai" three_styles [2; 1; 0]%Q)
           thirty_words []);
    [by eexists|by eexists|by eexists|simpl; lia|simpl; lia].
Defined.

(** ** The keys read in [CONFIG] *)

(** X13: [full_classify] reads three keys of [CONFIG] and no other: two
    configurations that agree on ["min_words"],
    ["human_confidence_threshold"] and ["attrib_confidence_gap"] give the
    same outcome for every text. *)
Theorem full_classify_reads_three_keys (h : HumanAIModel) (a : AttribModel)
    (c c' : gmap string Q) (t : text) (log : list call) :
  c !! "min_words" = c' !! "min_words" →
  c !! "human_confidence_threshold" = c' !! "human_confidence_threshold" →
  c !! "attrib_confidence_gap" = c' !! "attrib_confidence_gap" →
  full_classify {| human_ai_model := h; attrib_model := a; CONFIG := c |}
    t log
  = full_classify {| human_ai_model := h; attrib_model := a; CONFIG := c' |}
      t log.
Proof.
  intros Hmin Hthr Hgap. rewrite !full_classify_cases.
  cbn [CONFIG human_ai_model]. rewrite Hmin, Hthr.
  unfold stage2_outcome. cbn [CONFIG]. rewrite Hgap.
  rewrite !safe_attribution_cases. done.
Qed.

Lemma full_classify_reads_three_keys_witness :
  let h := sample_human_ai (9 # 10) "ai" in
  let a := sample_attrib three_styles [2; 1; 0]%Q in
  full_classify {| human_ai_model := h; attrib_model := a;
                   CONFIG := DEFAULT_CONFIG |} thirty_words []
  = full_classify {| human_ai_model := h; attrib_model := a;
                     CONFIG := <["top_k" := 5%Q]> DEFAULT_CONFIG |}
      thirty_words [].
Proof.
  intros h a.
  apply (full_classify_reads_three_keys h a DEFAULT_CONFIG
           (<["top_k" := 5%Q]> DEFAULT_CONFIG) thirty_words []);
    reflexivity.
Defined.

(** X14: the [and] of line 85 reads the threshold only for the label
    ["human"]: for any other label the outcome does not depend on
    [CONFIG["human_confidence_threshold"]], which may even be absent, nor on
    the score of the human/AI model. *)
Theorem other_label_ignores_threshold_and_score (h h' : HumanAIModel)
    (a : AttribModel) (c c' : gmap string Q) (t : text) (log : list call) :
  hvai_predict h (strip t) ≠ "human" →
  hvai_predict h' (strip t) ≠ "human" →
  c !! "min_words" = c' !! "min_words" →
  c !! "attrib_confidence_gap" = c' !! "attrib_confidence_gap" →
  full_classify {| human_ai_model := h; attrib_model := a; CONFIG := c |}
    t log
  = full_classify {| human_ai_model := h'; attrib_model := a; CONFIG := c' |}
      t log.
Proof.
  intros Hl Hl' Hmin Hgap. rewrite !full_classify_cases.
  cbn [CONFIG human_ai_model label]. rewrite Hmin.
  apply String.eqb_neq in Hl, Hl'. rewrite Hl, Hl'.
  unfold stage2_outcome. cbn [CONFIG]. rewrite Hgap.
  rewrite !safe_attribution_cases. done.
Qed.

Lemma other_label_ignores_threshold_and_score_witness :
  let a := sample_attrib three_styles [2; 1; 0]%Q in
  full_classify {| human_ai_model := sample_human_ai (9 # 10) "ai";
                   attrib_model := a; CONFIG := DEFAULT_CONFIG |}
    thirty_words []
  = full_classify {| human_ai_model := sample_human_ai (1 # 10) "ai";
                     attrib_model := a;
                     CONFIG := delete "human_confidence_threshold"
                                      DEFAULT_CONFIG |}
      thirty_words [].
Proof.
  intros a.
  apply (other_label_ignores_threshold_and_score
           (sample_human_ai (9 # 10) "ai") (sample_human_ai (1 # 10) "ai") a
           DEFAULT_CONFIG (delete "human_confidence_threshold" DEFAULT_CONFIG)
           thirty_words []);
    [intros H; vm_compute in H; discriminate
    |intros H; vm_compute in H; discriminate
    |reflexivity|reflexivity].
Defined.

(** X15: a configuration file is taken whole, the built-in values fill no
    gap: when the file is a JSON object without ["min_words"], the import
    of the module succeeds and every request raises [KeyError] before any
    call to a model. *)
Theorem config_file_without_min_words (h : HumanAIModel) (a : AttribModel)
    (d : gmap string Q) (requests : list text) :
  d !! "min_words" = None →
  run {| human_ai_joblib := ModelLoaded h;
         attrib_joblib := ModelLoaded a;
         config_json := ConfigJson d |} requests
  = Return (map (fun _ => (Raise (KeyError "min_words"), [])) requests).
Proof.
  intros Hd. unfold run, import_module. simpl. f_equal.
  apply map_ext. intros t. rewrite full_classify_cases. simpl.
  by rewrite Hd.
Qed.

Lemma config_file_without_min_words_witness :
  run {| human_ai_joblib := ModelLoaded (sample_human_ai (9 # 10) "ai");
         attrib_joblib := ModelLoaded (sample_attrib three_styles [2; 1; 0]%Q);
         config_json := ConfigJson (delete "min_words" DEFAULT_CONFIG) |}
      [thirty_words; four_words]
  = Return (map (fun _ => (Raise (KeyError "min_words"), []))
                [thirty_words; four_words]).
Proof.
  apply (config_file_without_min_words _ _
           (delete "min_words" DEFAULT_CONFIG)).
  reflexivity.
Defined.

(** ** Rounding *)

Lemma round_half_even_spec (q : Q) :
  2 * Z.pos (Qden q) * round_half_even q - Z.pos (Qden q) ≤ 2 * Qnum q ∧
  2 * Qnum q ≤ 2 * Z.pos (Qden q) * round_half_even q + Z.pos (Qden q) ∧
  (2 * Qnum q = 2 * Z.pos (Qden q) * round_half_even q + Z.pos (Qden q) →
   Z.even (round_half_even q) = true) ∧
  (2 * Qnum q = 2 * Z.pos (Qden q) * round_half_even q - Z.pos (Qden q) →
   Z.even (round_half_even q) = true).
Proof.
  unfold round_half_even.
  set (n := Qnum q). set (d := Z.pos (Qden q)).
  assert (Hd : 0 < d) by (unfold d; lia).
  pose proof (Z.div_mod n d ltac:(lia)) as Hn.
  pose proof (Z.mod_pos_bound n d Hd) as Hr.
  set (f := n / d) in *. set (r := n mod d) in *.
  assert (Hf1 : 2 * d * (f + 1) = 2 * (d * f) + 2 * d) by ring.
  assert (Hf0 : 2 * d * f = 2 * (d * f)) by ring.
  destruct (Z.compare_spec (2 * r) d) as [Heq|Hlt|Hgt].
  - destruct (Z.even f) eqn:Hev.
    + rewrite Hf0. repeat split; try lia. done.
    + rewrite Hf1. repeat split; try lia. intros _.
      replace (f + 1) with (Z.succ f) by lia.
      by rewrite Z.even_succ, <- Z.negb_even, Hev.
  - rewrite Hf0. repeat split; lia.
  - rewrite Hf1. repeat split; lia.
Qed.

Lemma round_half_even_mono (x y : Q) :
  (x <= y)%Q → round_half_even x ≤ round_half_even y.
Proof.
  intros Hxy. unfold Qle in Hxy.
  destruct (round_half_even_spec x) as (Hx1 & _ & _ & Hx4).
  destruct (round_half_even_spec y) as (_ & Hy2 & Hy3 & _).
  set (zx := round_half_even x) in *. set (zy := round_half_even y) in *.
  set (nx := Qnum x) in *. set (ny := Qnum y) in *.
  set (dx := Z.pos (Qden x)) in *. set (dy := Z.pos (Qden y)) in *.
  assert (Hdx : 0 < dx) by (unfold dx; lia).
  assert (Hdy : 0 < dy) by (unfold dy; lia).
  destruct (Z.le_gt_cases zx zy) as [?|Hgt]; [done|exfalso].
  assert (Hzx : dx * (zy + 1) ≤ dx * zx) by (apply Z.mul_le_mono_nonneg_l; lia).
  assert (Ha : (2 * zy + 1) * dx ≤ 2 * nx) by lia.
  assert (Hb : 2 * ny ≤ (2 * zy + 1) * dy) by lia.
  assert (Ha' : (2 * zy + 1) * dx * dy ≤ 2 * nx * dy)
    by (apply Z.mul_le_mono_nonneg_r; lia).
  assert (Hb' : 2 * ny * dx ≤ (2 * zy + 1) * dy * dx)
    by (apply Z.mul_le_mono_nonneg_r; lia).
  assert (Hx_eq : 2 * nx * dy = (2 * zy + 1) * dx * dy) by lia.
  assert (Hy_eq : 2 * ny * dx = (2 * zy + 1) * dy * dx) by lia.
  apply Z.mul_cancel_r in Hx_eq; [|lia].
  apply Z.mul_cancel_r in Hy_eq; [|lia].
  assert (Hle : dx * (2 * zx - 1) ≤ dx * (2 * zy + 1)) by lia.
  apply Z.mul_le_mono_pos_l in Hle; [|done].
  assert (Hzeq : zx = zy + 1) by lia.
  assert (Hevy : Z.even zy = true) by (apply Hy3; lia).
  assert (Hevx : Z.even zx = true) by (apply Hx4; lia).
  rewrite Hzeq in Hevx. replace (zy + 1) with (Z.succ zy) in Hevx by lia.
  rewrite Z.even_succ, <- Z.negb_even, Hevy in Hevx. done.
Qed.

Lemma round_correct (x : Q) (ndigits : nat) :
  (round x ndigits ==
   inject_Z (round_half_even (x * inject_Z (10 ^ Z.of_nat ndigits)))
   / inject_Z (10 ^ Z.of_nat ndigits))%Q.
Proof. unfold round. apply Qred_correct. Qed.

Lemma pow10_pos (ndigits : nat) : (0 < inject_Z (10 ^ Z.of_nat ndigits))%Q.
Proof.
  change 0%Q with (inject_Z 0). rewrite <- Zlt_Qlt.
  apply Z.pow_pos_nonneg; lia.
Qed.

Lemma round_mono (x y : Q) (ndigits : nat) :
  (x <= y)%Q → (round x ndigits <= round y ndigits)%Q.
Proof.
  intros Hxy. rewrite !round_correct.
  pose proof (pow10_pos ndigits) as Hp.
  apply Qmult_le_compat_r; [|by apply Qlt_le_weak, Qinv_lt_0_compat].
  rewrite <- Zle_Qle. apply round_half_even_mono.
  apply Qmult_le_compat_r; [done|by apply Qlt_le_weak].
Qed.

Lemma round_half_even_opp (q : Q) :
  round_half_even (- q) = - round_half_even q.
Proof.
  destruct (round_half_even_spec q) as (H1 & H2 & H3 & H4).
  destruct (round_half_even_spec (- q)) as (G1 & G2 & G3 & G4).
  destruct q as [n d]. simpl in *.
  set (z := round_half_even (n # d)) in *.
  set (w := round_half_even (- (n # d))) in *.
  set (D := Z.pos d) in *. assert (HD : 0 < D) by (unfold D; lia).
  assert (Hzw : 2 * D * (z + w) = 2 * (D * (z + w))) by ring.
  assert (Hbound : - 1 ≤ z + w ≤ 1).
  { assert (- D ≤ D * (z + w) ≤ D) by lia. split.
    - destruct (Z.le_gt_cases (-1) (z + w)); [done|].
      assert (D * (z + w) ≤ D * (-2)) by (apply Z.mul_le_mono_nonneg_l; lia).
      lia.
    - destruct (Z.le_gt_cases (z + w) 1); [done|].
      assert (D * 2 ≤ D * (z + w)) by (apply Z.mul_le_mono_nonneg_l; lia).
      lia. }
  assert (Hcases : z + w = -1 ∨ z + w = 0 ∨ z + w = 1) by lia.
  destruct Hcases as [Hc|[Hc|Hc]]; [exfalso| lia |exfalso].
  - assert (Hw : w = - z - 1) by lia.
    assert (Hm : D * (z + w) = - D) by (rewrite Hc; ring).
    assert (Hez : Z.even z = true) by (apply H3; lia).
    assert (Hew : Z.even w = true) by (apply G3; lia).
    rewrite Hw in Hew.
    replace (- z - 1) with (Z.pred (- z)) in Hew by lia.
    rewrite Z.even_pred, Z.odd_opp, <- Z.negb_even, Hez in Hew. done.
  - assert (Hw : w = - z + 1) by lia.
    assert (Hm : D * (z + w) = D) by (rewrite Hc; ring).
    assert (Hez : Z.even z = true) by (apply H4; lia).
    assert (Hew : Z.even w = true) by (apply G4; lia).
    rewrite Hw in Hew.
    replace (- z + 1) with (Z.succ (- z)) in Hew by lia.
    rewrite Z.even_succ, Z.odd_opp, <- Z.negb_even, Hez in Hew. done.
Qed.

Lemma round_opp (x : Q) (ndigits : nat) :
  (round (- x) ndigits == - round x ndigits)%Q.
Proof.
  rewrite !round_correct.
  set (p := inject_Z (10 ^ Z.of_nat ndigits)).
  assert (Hmul : (- x * p)%Q = (- (x * p))%Q).
  { destruct x as [n d]. unfold Qmult, Qopp. simpl. f_equal. lia. }
  rewrite Hmul, round_half_even_opp.
  unfold Qdiv. rewrite inject_Z_opp. ring.
Qed.

Lemma round_0 (ndigits : nat) : (round 0 ndigits == 0)%Q.
Proof.
  rewrite round_correct.
  set (p := inject_Z (10 ^ Z.of_nat ndigits)).
  assert (Hz : round_half_even (0 * p) = 0).
  { unfold round_half_even. cbn [Qmult Qnum Qden].
    rewrite Z.mul_0_l, Zdiv_0_l, Zmod_0_l. done. }
  rewrite Hz. unfold Qdiv. apply Qmult_0_l.
Qed.

Lemma Qabs_round (x : Q) (ndigits : nat) :
  (Qabs (round x ndigits) == round (Qabs x) ndigits)%Q.
Proof.
  destruct (Qlt_le_dec x 0) as [Hneg|Hpos].
  - assert (Hx : Qabs x = (- x)%Q).
    { destruct x as [[|n|n] d]; try done. }
    rewrite Hx, round_opp. apply Qabs_neg.
    rewrite <- (round_0 ndigits). by apply round_mono, Qlt_le_weak.
  - assert (Hx : Qabs x = x).
    { by destruct x as [[|n|n] d]. }
    rewrite Hx. apply Qabs_pos. by apply round_nonneg.
Qed.

(** ** The result of [human_ai_decision] *)

(** X16: [human_ai_decision] makes its two calls and raises nothing; in
    its dict the label is the prediction of the model, and the confidence
    is the absolute value of the raw score (rounding commutes with [abs])
    and is never negative. *)
Theorem human_ai_decision_result (g : Globals) (t : text) (log : list call) :
  ∃ hvai : HvaiResult,
    human_ai_decision g t log = (Return hvai, log ++ stage1_calls t) ∧
    label hvai = hvai_predict (human_ai_model g) t ∧
    (confidence hvai == Qabs (raw_score hvai))%Q ∧
    (0 <= confidence hvai)%Q.
Proof.
  eexists. split; [apply human_ai_decision_run|].
  cbn [label confidence raw_score].
  split; [done|]. split; [by rewrite Qabs_round|].
  apply round_nonneg, Qabs_nonneg.
Qed.

(** ** The result of [safe_attribution] *)

Lemma ranking_elem_of (model : AttribModel) (t : text) (top_k : Z)
    (x : string * Q) :
  x ∈ slice_to (sorted snd (zip (classes_ model) (decision_function model t))
                       true) top_k →
  x ∈ zip (classes_ model) (decision_function model t).
Proof.
  destruct (slice_to_take
              (sorted snd (zip (classes_ model) (decision_function model t))
                      true) top_k) as [n ->].
  intros Hx. apply list_elem_of_lookup_1 in Hx as [i Hi].
  apply lookup_take_Some in Hi as [Hi _].
  apply list_elem_of_lookup_2 in Hi. by rewrite sorted_Permutation in Hi.
Qed.

Lemma NoDup_take {A} (l : list A) (n : nat) : NoDup l → NoDup (take n l).
Proof. intros Hl. eapply sublist_NoDup; [exact Hl|apply sublist_take]. Qed.

Lemma rounded_ranking_descending (before : relation (string * Q))
    (l : list (string * Q)) :
  StronglySorted (descending snd before) l →
  StronglySorted (fun a b => (b.2 <= a.2)%Q)
    (map (fun '(m, s) => (m, round s 3)) l).
Proof.
  induction 1 as [|[m s] l Hl IH Hall]; [constructor|].
  simpl. constructor; [apply IH|].
  rewrite Forall_forall in Hall. apply Forall_forall.
  intros [m' r'] Hin. apply list_elem_of_In, in_map_iff in Hin
    as ([m2 s2] & [= <- <-] & Hin).
  apply list_elem_of_In, Hall in Hin. simpl.
  apply round_mono. by apply (descending_key_ge snd) in Hin.
Qed.

(** X17: the predicted model is a class of highest score: it stands in
    [model.classes_] with a score that no pair of class and score
    exceeds. *)
Theorem predicted_model_has_highest_score (g : Globals) (t : text)
    (log log' : list call) (attrib : AttribResult) :
  safe_attribution g t log = (Return attrib, log') →
  ∃ best_score : Q,
    (predicted_model attrib, best_score)
      ∈ zip (classes_ (attrib_model g))
            (decision_function (attrib_model g) t) ∧
    ∀ (c : string) (s : Q),
      (c, s) ∈ zip (classes_ (attrib_model g))
                   (decision_function (attrib_model g) t) →
      (s <= best_score)%Q.
Proof.
  intros Hrun.
  apply safe_attribution_Return in Hrun as (best & second & H0 & _ & -> & _).
  destruct best as [bm bs]. exists bs. cbn [predicted_model fst].
  split; [eapply ranking_elem_of, list_elem_of_lookup_2, H0|].
  intros c s Hcs.
  destruct (slice_to_take
    (sorted snd (zip (classes_ (attrib_model g))
                     (decision_function (attrib_model g) t)) true) 3)
    as [n Hn].
  rewrite Hn in H0. apply lookup_take_Some in H0 as [H0 _].
  rewrite <- (sorted_Permutation snd _ true) in Hcs.
  apply list_elem_of_lookup_1 in Hcs as [j Hj].
  destruct j as [|j].
  - rewrite H0 in Hj. injection Hj as <- <-. apply Qle_refl.
  - apply (descending_key_ge snd
             (precedes (zip (classes_ (attrib_model g))
                            (decision_function (attrib_model g) t)))
             (bm, bs) (c, s)).
    eapply (StronglySorted_lookup _ _ 0 (S j));
      [apply sorted_reverse_descending, precedes_StronglySorted
      |exact H0|exact Hj|lia].
Qed.

Lemma predicted_model_has_highest_score_witness :
  let g := sample_globals (9 # 10) "ai" four_styles [1; 2; 1; 2]%Q in
  ∃ best_score : Q,
    ("llama_style", best_score)
      ∈ zip (classes_ (attrib_model g)) (decision_function (attrib_model g) [])
    ∧ ∀ (c : string) (s : Q),
        (c, s) ∈ zip (classes_ (attrib_model g))
                     (decision_function (attrib_model g) []) →
        (s <= best_score)%Q.
Proof.
  intros g.
  apply (predicted_model_has_highest_score g [] []
           [Attrib_decision_function []]
           {| predicted_model := "llama_style";
              confidence_gap := 0%Q;
              top_candidates :=
                [("llama_style", 2%Q); ("mistral_style", 2%Q);
                 ("gpt_style", 1%Q)] |}).
  reflexivity.
Defined.

(** X18: the [top_candidates] of an attribution result are two or three
    pairs; the first one holds the predicted model; each pair is a class of
    the model with its score rounded to 3 decimals; the rounded scores are
    in descending order; and the classes are distinct when those of the
    model are. *)
Theorem top_candidates_are_rounded_ranking (g : Globals) (t : text)
    (log log' : list call) (attrib : AttribResult) :
  safe_attribution g t log = (Return attrib, log') →
  (2 ≤ length (top_candidates attrib) ≤ 3)%nat ∧
  (top_candidates attrib).*1 !! 0%nat = Some (predicted_model attrib) ∧
  (∀ (c : string) (r : Q),
     (c, r) ∈ top_candidates attrib →
     ∃ s : Q,
       (c, s) ∈ zip (classes_ (attrib_model g))
                    (decision_function (attrib_model g) t) ∧
       r = round s 3) ∧
  StronglySorted (fun a b => (b.2 <= a.2)%Q) (top_candidates attrib) ∧
  (NoDup (classes_ (attrib_model g)) → NoDup (top_candidates attrib).*1).
Proof.
  intros Hrun.
  apply safe_attribution_Return in Hrun as (best & second & H0 & H1 & -> & _).
  cbn [top_candidates predicted_model].
  set (declared := zip (classes_ (attrib_model g))
                       (decision_function (attrib_model g) t)) in *.
  set (ranked := slice_to (sorted snd declared true) 3) in *.
  assert (Hmap : ∀ l : list (string * Q),
    (map (fun '(m, s) => (m, round s 3)) l).*1 = l.*1).
  { intros l. induction l as [|[m s] l IH]; [done|]. simpl. by f_equal. }
  split; [|split; [|split; [|split]]].
  - rewrite length_map. split.
    + apply lookup_lt_Some in H1. lia.
    + unfold ranked. rewrite length_slice_to by lia. lia.
  - rewrite Hmap, list_lookup_fmap, H0. done.
  - intros c r Hcr. apply list_elem_of_In, in_map_iff in Hcr
      as ([m s] & [= <- <-] & Hin).
    exists s. split; [|done].
    apply list_elem_of_In in Hin. by apply ranking_elem_of in Hin.
  - eapply rounded_ranking_descending,
      (classify_with_confidence_descending t (attrib_model g) 3).
  - intros Hnd. rewrite Hmap.
    destruct (slice_to_take (sorted snd declared true) 3) as [n Hn].
    unfold ranked. rewrite Hn, fmap_take. apply NoDup_take.
    rewrite sorted_Permutation. unfold declared.
    destruct (decide (length (classes_ (attrib_model g))
                      ≤ length (decision_function (attrib_model g) t))%nat).
    + by rewrite fst_zip.
    + eapply NoDup_fmap_fst; [|by apply NoDup_zip_l].
      intros c s1 s2 Hs1 Hs2.
      apply list_elem_of_lookup_1 in Hs1 as [i Hi], Hs2 as [j Hj].
      apply lookup_zip_with_Some in Hi as (c1 & q1 & [= <- <-] & Hci & Hqi).
      apply lookup_zip_with_Some in Hj as (c2 & q2 & [= <- <-] & Hcj & Hqj).
      pose proof (NoDup_lookup _ _ _ _ Hnd Hci Hcj) as ->. congruence.
Qed.

Lemma top_candidates_are_rounded_ranking_witness :
  let g := sample_globals (9 # 10) "ai" four_styles [1; 2; 1; 2]%Q in
  let attrib :=
    {| predicted_model := "llama_style";
       confidence_gap := 0%Q;
       top_candidates :=
         [("llama_style", 2%Q); ("mistral_style", 2%Q); ("gpt_style", 1%Q)] |}
  in
  (2 ≤ length (top_candidates attrib) ≤ 3)%nat ∧
  (top_candidates attrib).*1 !! 0%nat = Some (predicted_model attrib) ∧
  (∀ (c : string) (r : Q),
     (c, r) ∈ top_candidates attrib →
     ∃ s : Q,
       (c, s) ∈ zip (classes_ (attrib_model g))
                    (decision_function (attrib_model g) []) ∧
       r = round s 3) ∧
  StronglySorted (fun a b => (b.2 <= a.2)%Q) (top_candidates attrib) ∧
  (NoDup (classes_ (attrib_model g)) → NoDup (top_candidates attrib).*1).
Proof.
  intros g attrib.
  apply (top_candidates_are_rounded_ranking g [] []
           [Attrib_decision_function []] attrib).
  reflexivity.
Defined.

(** ** The ranking of [classify_with_confidence] *)

(** X20: the ranking invents nothing and, with room, loses nothing: every
    pair it returns is a pair of a class and its score, no pair is returned
    twice when the classes are distinct, and when [top_k] is at least the
    number of pairs the ranking is a permutation of all of them. *)
Theorem ranking_is_selection_of_pairs (t : text) (model : AttribModel)
    (top_k : Z) (log : list call) :
  ∃ ranked : list (string * Q),
    classify_with_confidence t model top_k log
      = (Return ranked, log ++ [Attrib_decision_function t]) ∧
    (∀ x : string * Q,
       x ∈ ranked → x ∈ zip (classes_ model) (decision_function model t)) ∧
    (NoDup (classes_ model) → NoDup ranked) ∧
    (Z.of_nat (length (zip (classes_ model) (decision_function model t)))
     ≤ top_k →
     ranked ≡ₚ zip (classes_ model) (decision_function model t)).
Proof.
  eexists. split; [apply classify_with_confidence_run|].
  split; [intros x; apply ranking_elem_of|]. split.
  - intros Hnd.
    destruct (slice_to_take
      (sorted snd (zip (classes_ model) (decision_function model t)) true)
      top_k) as [n ->].
    apply NoDup_take. rewrite sorted_Permutation. by apply NoDup_zip_l.
  - intros Hk. unfold slice_to.
    destruct (Z.ltb_spec top_k 0); [lia|].
    rewrite take_ge; [apply sorted_Permutation|].
    rewrite length_sorted. lia.
Qed.

(** ** The callback [ui_wrapper] *)

Lemma ui_wrapper_cases (format_gap : Q → string) (g : Globals) (t : text)
    (log : list call) :
  ui_wrapper format_gap g t log =
    match full_classify g t log with
    | (Raise e, log') => (Raise e, log')
    | (Return (Uncertain reason), log') =>
        (Return (HEADLINE_UNCERTAIN, reason, Uncertain reason), log')
    | (Return (Human d), log') =>
        (Return (HEADLINE_HUMAN, EXPLANATION_HUMAN, Human d), log')
    | (Return (AiUncertain a), log') =>
        (Return (HEADLINE_AI_UNCERTAIN, EXPLANATION_AI_UNCERTAIN,
                 AiUncertain a), log')
    | (Return (Ai model a), log') =>
        (Return (HEADLINE_AI, explanation_ai format_gap model (confidence_gap a),
                 Ai model a), log')
    end.
Proof.
  unfold ui_wrapper, bind.
  by destruct (full_classify g t log) as [[[r|d|a|m a]|e] log'].
Qed.

Lemma str_contains_append_r (needle pre s : string) :
  str_contains needle s = true → str_contains needle (pre +:+ s) = true.
Proof.
  intros Hs. induction pre as [|c pre IH]; [done|].
  change (str_contains needle (String c (pre +:+ s)) = true).
  simpl. rewrite IH. apply orb_true_r.
Qed.

(** X21: [ui_wrapper] adds no failure and no call of its own: it raises
    exactly the exception of [full_classify] when there is one (its own key
    lookups never fail), and otherwise returns, with the same calls logged,
    a triple whose third component is the result of [full_classify]
    unchanged. *)
Theorem ui_wrapper_follows_full_classify (format_gap : Q → string)
    (g : Globals) (t : text) (log : list call) :
  match full_classify g t log with
  | (Return v, log') =>
      ∃ headline explanation : string,
        ui_wrapper format_gap g t log
        = (Return (headline, explanation, v), log')
  | (Raise e, log') => ui_wrapper format_gap g t log = (Raise e, log')
  end.
Proof.
  rewrite ui_wrapper_cases.
  destruct (full_classify g t log) as [[[r|d|a|m a]|e] log']; eauto.
Qed.

(** X22: the fallback text of line 182 is never shown.  Whatever
    [ui_wrapper] returns, the explanation is not ["The system could not make
    a reliable determination."]; under the headline ["Uncertain"] it is the
    reason of the length guardrail, with the word count of the text. *)
Theorem ui_wrapper_never_shows_fallback (format_gap : Q → string)
    (g : Globals) (t : text) (log log' : list call)
    (headline explanation : string) (v : verdict) :
  ui_wrapper format_gap g t log = (Return (headline, explanation, v), log') →
  explanation ≠ EXPLANATION_FALLBACK ∧
  (headline = HEADLINE_UNCERTAIN →
   explanation = "Text too short (" +:+ (str (word_count t) +:+ " words)") ∧
   v = Uncertain explanation ∧
   log' = log).
Proof.
  rewrite ui_wrapper_cases.
  destruct (full_classify g t log) as [[[r|d|a|m a]|e] l] eqn:Hrun;
    intros [= <- <- <- <-].
  - apply full_classify_Return_inv in Hrun
      as [(mw & _ & _ & [= ->] & ->)
         |[(_ & ? & ? & _ & ? & _)|(_ & _ & Hrun)]]; [|done|].
    + split; [done|]. done.
    + apply stage2_outcome_inv in Hrun
        as (? & _ & [[? _]|(_ & ? & _ & [[? _]|[? _]])]); done.
  - split; [done|]. intros H. vm_compute in H. discriminate.
  - split; [done|]. intros H. vm_compute in H. discriminate.
  - split; [|intros H; vm_compute in H; discriminate].
    unfold explanation_ai, EXPLANATION_FALLBACK. simpl. intros H.
    discriminate.
Qed.

Lemma ui_wrapper_never_shows_fallback_witness :
  "Text too short (4 words)" ≠ EXPLANATION_FALLBACK ∧
  (HEADLINE_UNCERTAIN = HEADLINE_UNCERTAIN →
   "Text too short (4 words)"
   = "Text too short (" +:+ (str (word_count four_words) +:+ " words)") ∧
   Uncertain "Text too short (4 words)" = Uncertain "Text too short (4 words)" ∧
   @nil call = []).
Proof.
  apply (ui_wrapper_never_shows_fallback (fun _ => "0.3")
           (sample_globals (9 # 10) "ai" three_styles [2; 1; 0]%Q)
           four_words [] [] HEADLINE_UNCERTAIN "Text too short (4 words)"
           (Uncertain "Text too short (4 words)")).
  reflexivity.
Defined.

(** X23: the headline tells the final label, one headline for each of the
    four labels; and for the label ["ai"] the explanation is the f-string
    of lines 167 and 168, which holds the predicted model and the printed
    confidence gap of the details. *)
Theorem ui_wrapper_headline_tells_label (format_gap : Q → string)
    (g : Globals) (t : text) (log log' : list call)
    (headline explanation : string) (v : verdict) :
  ui_wrapper format_gap g t log = (Return (headline, explanation, v), log') →
  (headline = HEADLINE_HUMAN ↔ final_label v = "human") ∧
  (headline = HEADLINE_AI ↔ final_label v = "ai") ∧
  (headline = HEADLINE_AI_UNCERTAIN ↔ final_label v = "ai_uncertain") ∧
  (headline = HEADLINE_UNCERTAIN ↔ final_label v = "uncertain") ∧
  (∀ (model : string) (attrib : AttribResult),
     v = Ai model attrib →
     explanation = explanation_ai format_gap model (confidence_gap attrib) ∧
     str_contains model explanation = true ∧
     str_contains (format_gap (confidence_gap attrib)) explanation = true).
Proof.
  rewrite ui_wrapper_cases.
  destruct (full_classify g t log) as [[[r|d|a|m a]|e] l] eqn:Hrun;
    intros [= <- <- <- <-]; (split; [|split; [|split; [|split]]]);
    try (split; intros H; vm_compute in H |- *; first [discriminate|done]);
    try (intros model attrib [=]).
  subst. split; [done|]. unfold explanation_ai. split.
  - apply str_contains_app.
  - do 5 apply str_contains_append_r.
    apply (str_contains_app _ "Confidence gap: **").
Qed.

Lemma ui_wrapper_headline_tells_label_witness :
  let g := sample_globals (9 # 10) "ai" three_styles [2; 1; 0]%Q in
  let v := Uncertain "Text too short (4 words)" in
  let headline := HEADLINE_UNCERTAIN in
  let explanation := "Text too short (4 words)" in
  (headline = HEADLINE_HUMAN ↔ final_label v = "human") ∧
  (headline = HEADLINE_AI ↔ final_label v = "ai") ∧
  (headline = HEADLINE_AI_UNCERTAIN ↔ final_label v = "ai_uncertain") ∧
  (headline = HEADLINE_UNCERTAIN ↔ final_label v = "uncertain") ∧
  (∀ (model : string) (attrib : AttribResult),
     v = Ai model attrib →
     explanation
     = explanation_ai (fun _ => "0.3") model (confidence_gap attrib) ∧
     str_contains model explanation = true ∧
     str_contains ((fun _ : Q => "0.3") (confidence_gap attrib)) explanation
     = true).
Proof.
  intros g v headline explanation.
  apply (ui_wrapper_headline_tells_label (fun _ => "0.3") g four_words [] []
           headline explanation v).
  reflexivity.
Defined.

(** ** Moving the thresholds *)

(** X24: raising [CONFIG["min_words"]] keeps every ["uncertain"] verdict:
    a text found too short for one minimum is found too short, with the
    same reason and no call to a model, for every larger minimum, whatever
    the rest of the configuration. *)
Theorem larger_min_words_keeps_uncertain (h : HumanAIModel) (a : AttribModel)
    (c c' : gmap string Q) (m m' : Q) (t : text) (log log' : list call)
    (reason : string) :
  c !! "min_words" = Some m →
  c' !! "min_words" = Some m' →
  (m <= m')%Q →
  full_classify {| human_ai_model := h; attrib_model := a; CONFIG := c |}
    t log = (Return (Uncertain reason), log') →
  full_classify {| human_ai_model := h; attrib_model := a; CONFIG := c' |}
    t log = (Return (Uncertain reason), log').
Proof.
  intros Hm Hm' Hle Hrun.
  apply full_classify_Return_inv in Hrun
    as [(mw & Hmw & Hlt & [= ->] & ->)
       |[(_ & ? & ? & _ & ? & _)|(_ & _ & Hrun)]]; [|done|].
  - cbn [CONFIG] in Hmw. assert (mw = m) as -> by congruence.
    apply (full_classify_short _ t m'); [done|].
    by eapply Qlt_le_trans.
  - apply stage2_outcome_inv in Hrun
      as (? & _ & [[? _]|(_ & ? & _ & [[? _]|[? _]])]); done.
Qed.

Lemma larger_min_words_keeps_uncertain_witness :
  full_classify {| human_ai_model := sample_human_ai (9 # 10) "ai";
                   attrib_model := sample_attrib three_styles [2; 1; 0]%Q;
                   CONFIG := <["min_words" := 40%Q]> DEFAULT_CONFIG |}
    four_words [] = (Return (Uncertain "Text too short (4 words)"), []).
Proof.
  apply (larger_min_words_keeps_uncertain _ _ DEFAULT_CONFIG
           (<["min_words" := 40%Q]> DEFAULT_CONFIG) 30%Q 40%Q four_words [] []);
    [reflexivity|reflexivity|by vm_compute|reflexivity].
Defined.

(** X25: lowering [CONFIG["human_confidence_threshold"]] keeps every
    stage-1 ["human"] verdict: with the same ["min_words"], a text that
    stage 1 returns as human for one threshold is returned as human, with
    the same details and calls, for every smaller threshold, whatever the
    gap threshold. *)
Theorem smaller_threshold_keeps_stage1_human (h : HumanAIModel)
    (a : AttribModel) (c c' : gmap string Q) (thr thr' : Q) (t : text)
    (log log' : list call) (hvai : HvaiResult) :
  c !! "min_words" = c' !! "min_words" →
  c !! "human_confidence_threshold" = Some thr →
  c' !! "human_confidence_threshold" = Some thr' →
  (thr' <= thr)%Q →
  full_classify {| human_ai_model := h; attrib_model := a; CONFIG := c |}
    t log = (Return (Human (HvaiDetails hvai)), log') →
  full_classify {| human_ai_model := h; attrib_model := a; CONFIG := c' |}
    t log = (Return (Human (HvaiDetails hvai)), log').
Proof.
  intros Hmin Hthr Hthr' Hle Hrun.
  apply full_classify_Return_inv in Hrun
    as [(? & _ & _ & ? & _)
       |[((mw & Hmw & Hge) & hv & th & Hh & [= <-] & Hlabel & Hth & Hconf)
        |(_ & _ & Hrun)]]; [done| |].
  - cbn [CONFIG] in Hmw, Hth. assert (th = thr) as -> by congruence.
    rewrite human_ai_decision_run in Hh. injection Hh as <- <-.
    cbn [label confidence human_ai_model] in *.
    apply (full_classify_stage1_exit
             {| human_ai_model := h; attrib_model := a; CONFIG := c' |}
             t thr' log); cbn [CONFIG human_ai_model].
    + exists mw. cbn [CONFIG]. split; [by rewrite <- Hmin|done].
    + done.
    + done.
    + by eapply Qle_trans.
  - apply stage2_outcome_inv in Hrun
      as (? & _ & [[? _]|(_ & ? & _ & [[? _]|[? _]])]); done.
Qed.

Lemma smaller_threshold_keeps_stage1_human_witness :
  full_classify {| human_ai_model := sample_human_ai (8 # 10) "human";
                   attrib_model := sample_attrib three_styles [2; 1; 0]%Q;
                   CONFIG := <["human_confidence_threshold" := (1 # 10)%Q]>
                               DEFAULT_CONFIG |}
    thirty_words []
  = (Return (Human (HvaiDetails {| label := "human";
                                   confidence := (4 # 5)%Q;
                                   raw_score := (4 # 5)%Q |})),
     stage1_calls (strip thirty_words)).
Proof.
  apply (smaller_threshold_keeps_stage1_human _ _ DEFAULT_CONFIG
           (<["human_confidence_threshold" := (1 # 10)%Q]> DEFAULT_CONFIG)
           (5 # 10)%Q (1 # 10)%Q thirty_words [] _ _);
    [reflexivity|reflexivity|reflexivity|by vm_compute|reflexivity].
Defined.

(** X26: lowering [CONFIG["attrib_confidence_gap"]] keeps every ["ai"]
    verdict, and raising it keeps every ["ai_uncertain"] verdict, the two
    other keys being the same: the gap threshold only moves texts between
    these two verdicts. *)
Theorem gap_threshold_moves_ai_and_uncertain (h : HumanAIModel)
    (a : AttribModel) (c c' : gmap string Q) (gt gt' : Q) (t : text)
    (log log' : list call) (attrib : AttribResult) :
  c !! "min_words" = c' !! "min_words" →
  c !! "human_confidence_threshold" = c' !! "human_confidence_threshold" →
  c !! "attrib_confidence_gap" = Some gt →
  c' !! "attrib_confidence_gap" = Some gt' →
  (gt' <= gt)%Q →
  (full_classify {| human_ai_model := h; attrib_model := a; CONFIG := c |}
     t log = (Return (Ai (predicted_model attrib) attrib), log') →
   full_classify {| human_ai_model := h; attrib_model := a; CONFIG := c' |}
     t log = (Return (Ai (predicted_model attrib) attrib), log')) ∧
  (full_classify {| human_ai_model := h; attrib_model := a; CONFIG := c' |}
     t log = (Return (AiUncertain attrib), log') →
   full_classify {| human_ai_model := h; attrib_model := a; CONFIG := c |}
     t log = (Return (AiUncertain attrib), log')) ∧
  (∀ v : verdict,
     full_classify {| human_ai_model := h; attrib_model := a; CONFIG := c |}
       t log = (Return v, log') →
     ∃ v' : verdict,
       full_classify {| human_ai_model := h; attrib_model := a; CONFIG := c' |}
         t log = (Return v', log') ∧
       (v' = v ∨ ∃ attrib' : AttribResult,
                   v = AiUncertain attrib' ∧
                   v' = Ai (predicted_model attrib') attrib')).
Proof.
  intros Hmin Hthr Hgt Hgt' Hle.
  rewrite !full_classify_cases. cbn [CONFIG human_ai_model].
  rewrite <- Hmin, <- Hthr.
  assert (Hstage2 : ∀ l,
    let r := safe_attribution
               {| human_ai_model := h; attrib_model := a; CONFIG := c |}
               (strip t) l in
    let r' := safe_attribution
                {| human_ai_model := h; attrib_model := a; CONFIG := c' |}
                (strip t) l in
    let s := stage2_outcome
               {| human_ai_model := h; attrib_model := a; CONFIG := c |} r in
    let s' := stage2_outcome
                {| human_ai_model := h; attrib_model := a; CONFIG := c' |} r' in
    (s = (Return (Ai (predicted_model attrib) attrib), log') →
     s' = (Return (Ai (predicted_model attrib) attrib), log')) ∧
    (s' = (Return (AiUncertain attrib), log') →
     s = (Return (AiUncertain attrib), log')) ∧
    (∀ v, s = (Return v, log') →
       ∃ v', s' = (Return v', log') ∧
         (v' = v ∨ ∃ attrib', v = AiUncertain attrib' ∧
                     v' = Ai (predicted_model attrib') attrib'))).
  { intros l. cbv zeta. rewrite !safe_attribution_cases. cbn [attrib_model].
    destruct (slice_to _ 3) as [|b [|s rest]];
      [by split; [|split; [|intros ?]]..|].
    unfold stage2_outcome. cbn [CONFIG predicted_model confidence_gap].
    rewrite Hgt, Hgt'.
    destruct (String.eqb b.1 "human_story");
      [split; [done|split; [done|intros v [= <- <-]; eauto]]|].
    destruct (Qlt_bool (round (b.2 - s.2) 3) gt) eqn:H1;
      destruct (Qlt_bool (round (b.2 - s.2) 3) gt') eqn:H2;
      (split; [try done|split; [try done|]]).
    - intros v [= <- <-]. eauto.
    - intros v [= <- <-]. eexists. split; [done|]. right. eauto.
    - intros _. exfalso. apply Qlt_bool_false in H1.
      apply Qlt_bool_true in H2. apply H1. by eapply Qlt_le_trans.
    - exfalso. apply Qlt_bool_false in H1.
      apply Qlt_bool_true in H2. apply H1. by eapply Qlt_le_trans.
    - intros v [= <- <-]. exfalso. apply Qlt_bool_false in H1.
      apply Qlt_bool_true in H2. apply H1. by eapply Qlt_le_trans.
    - intros v [= <- <-]. eauto. }
  destruct (c !! "min_words") as [mw|];
    [|by split; [|split; [|intros ?]]].
  destruct (Qlt_bool _ mw);
    [split; [done|split; [done|intros v [= <- <-]; eauto]]|].
  cbv zeta. cbn [label confidence].
  destruct (String.eqb _ "human"); [|apply Hstage2].
  destruct (c !! "human_confidence_threshold") as [th|];
    [|by split; [|split; [|intros ?]]].
  destruct (Qle_bool th _); [|apply Hstage2].
  split; [done|split; [done|intros v [= <- <-]; eauto]].
Qed.

Lemma gap_threshold_moves_ai_and_uncertain_witness :
  let h := sample_human_ai (9 # 10) "ai" in
  let a := sample_attrib three_styles [2; 17 # 10; 12 # 10]%Q in
  let c := DEFAULT_CONFIG in
  let c' := <["attrib_confidence_gap" := (1 # 10)%Q]> DEFAULT_CONFIG in
  let attrib :=
    {| predicted_model := "gpt_style";
       confidence_gap := (3 # 10)%Q;
       top_candidates :=
         [("gpt_style", 2%Q); ("llama_style", (17 # 10)%Q);
          ("human_story", (6 # 5)%Q)] |} in
  let log' :=
    ([] ++ stage1_calls (strip thirty_words))
    ++ [Attrib_decision_function (strip thirty_words)] in
  (full_classify {| human_ai_model := h; attrib_model := a; CONFIG := c |}
     thirty_words []
   = (Return (Ai (predicted_model attrib) attrib), log') →
   full_classify {| human_ai_model := h; attrib_model := a; CONFIG := c' |}
     thirty_words []
   = (Return (Ai (predicted_model attrib) attrib), log')) ∧
  (full_classify {| human_ai_model := h; attrib_model := a; CONFIG := c' |}
     thirty_words [] = (Return (AiUncertain attrib), log') →
   full_classify {| human_ai_model := h; attrib_model := a; CONFIG := c |}
     thirty_words [] = (Return (AiUncertain attrib), log')) ∧
  (∀ v : verdict,
     full_classify {| human_ai_model := h; attrib_model := a; CONFIG := c |}
       thirty_words [] = (Return v, log') →
     ∃ v' : verdict,
       full_classify {| human_ai_model := h; attrib_model := a; CONFIG := c' |}
         thirty_words [] = (Return v', log') ∧
       (v' = v ∨ ∃ attrib' : AttribResult,
                   v = AiUncertain attrib' ∧
                   v' = Ai (predicted_model attrib') attrib')).
Proof.
  intros h a c c' attrib log'.
  apply (gap_threshold_moves_ai_and_uncertain h a c c' (15 # 100)%Q (1 # 10)%Q
           thirty_words [] log' attrib);
    [reflexivity|reflexivity|reflexivity|reflexivity|by vm_compute].
Defined.
